(** * The [predict] subcommand of allennlp: a shallow embedding

    Source: [allennlp/commands/predict.py].  The module is orchestration
    code: it reads records lazily from a source, groups them in batches,
    hands each batch to a predictor and prints and/or writes the results.

    The embedding keeps what the Python code has:
    - generators are finite sequences of steps (an effect, a yielded value,
      a return, a raise), so that the order in which a consumer pulls them
      is visible;
    - effects (printing, opening, writing and closing the output file,
      reading the input, calling the predictor) are events of a trace;
    - exceptions are values of [exn]; a computation is a trace together
      with a value or the exception that ended it. *)

From Stdlib Require Import String Ascii Bool Arith ZArith Lia DecimalString List.
Import ListNotations.

Local Open Scope string_scope.
Local Open Scope list_scope.

Set Implicit Arguments.

(** ** Python strings *)

Module PyStr.

(** [str.isspace] on one character, for the code points below 256:
    the characters whose bidirectional class is WS, B or S, or whose
    category is Zs. *)
Definition char_isspace (c : ascii) : bool :=
  let n := nat_of_ascii c in
  (((9 <=? n) && (n <=? 13)) || ((28 <=? n) && (n <=? 32))
   || (n =? 133) || (n =? 160))%nat.

Fixpoint all_space (s : string) : bool :=
  match s with
  | EmptyString => true
  | String c rest => char_isspace c && all_space rest
  end.

(** [s.isspace()]: at least one character, and all of them whitespace. *)
Definition isspace (s : string) : bool :=
  match s with
  | EmptyString => false
  | String _ _ => all_space s
  end.

Fixpoint lstrip (s : string) : string :=
  match s with
  | EmptyString => EmptyString
  | String c rest => if char_isspace c then lstrip rest else s
  end.

Fixpoint rstrip (s : string) : string :=
  match s with
  | EmptyString => EmptyString
  | String c rest =>
      match rstrip rest with
      | EmptyString => if char_isspace c then EmptyString else String c EmptyString
      | r => String c r
      end
  end.

(** [s.strip()] *)
Definition strip (s : string) : string := rstrip (lstrip s).

Definition newline : ascii := ascii_of_nat 10.

(** Iterating over a text stream: the content is cut after every
    newline, each line keeps its newline, and a last line without one is
    delivered as it is.  [cur] is the line being collected. *)
Fixpoint iter_lines (content cur : string) : list string :=
  match content with
  | EmptyString =>
      match cur with
      | EmptyString => []
      | _ => [cur]
      end
  | String c rest =>
      let cur' := (cur ++ String c EmptyString)%string in
      if Ascii.eqb c newline then cur' :: iter_lines rest EmptyString
      else iter_lines rest cur'
  end.

Definition lines (content : string) : list string :=
  iter_lines content EmptyString.

(** [str(n)] for a counter. *)
Definition of_nat (n : nat) : string :=
  NilZero.string_of_uint (Nat.to_uint n).

(** Truth value of an optional string: [None] and [""] are false. *)
Definition truthy (s : option string) : bool :=
  match s with
  | None => false
  | Some EmptyString => false
  | Some _ => true
  end.

End PyStr.

(** ** Exceptions *)

Inductive exn : Type :=
| ConfigurationError (msg : string)
| OSError (msg : string)
| AssertionError
| SystemExit (code : Z)
| OtherError (msg : string).

Inductive result (X : Type) : Type :=
| Ok (x : X)
| Err (e : exn).

Arguments Ok {X} x.
Arguments Err {X} e.

Definition is_configuration_error (e : exn) : bool :=
  match e with
  | ConfigurationError _ => true
  | _ => false
  end.

(** ** Command-line arguments

    The [argparse.Namespace] that [add_subparser] describes: one field
    per argument, with the type and default the parser gives it. *)

Module Namespace.

Record t : Type := {
  archive_file : string;
  input_file : string;
  output_file : option string;
  weights_file : option string;
  batch_size : Z;
  silent : bool;
  cuda_device : Z;
  use_dataset_reader : bool;
  dataset_reader_choice : string;
  compression_type : option string;
  multitask_head : option string;
  overrides : string;
  predictor : option string;
  predictor_args : string;
  file_friendly_logging : bool
}.

(** The values of the optional arguments when none is given. *)
Definition defaults (archive input : string) : t := {|
  archive_file := archive;
  input_file := input;
  output_file := None;
  weights_file := None;
  batch_size := 1;
  silent := false;
  cuda_device := (-1);
  use_dataset_reader := false;
  dataset_reader_choice := "validation";
  compression_type := None;
  multitask_head := None;
  overrides := "";
  predictor := None;
  predictor_args := "";
  file_friendly_logging := false
|}.

(** The same arguments with another [--compression-type]. *)
Definition with_compression_type (args : t) (c : option string) : t := {|
  archive_file := archive_file args;
  input_file := input_file args;
  output_file := output_file args;
  weights_file := weights_file args;
  batch_size := batch_size args;
  silent := silent args;
  cuda_device := cuda_device args;
  use_dataset_reader := use_dataset_reader args;
  dataset_reader_choice := dataset_reader_choice args;
  compression_type := c;
  multitask_head := multitask_head args;
  overrides := overrides args;
  predictor := predictor args;
  predictor_args := predictor_args args;
  file_friendly_logging := file_friendly_logging args
|}.

End Namespace.

Section Predict.

(** The types of the framework this module only passes around. *)
Context {JsonDict Instance Archive : Type}.

(** ** Events and generators *)

Inductive event : Type :=
| EvSetFileFriendlyLogging (b : bool)
| EvPrint (args : list string)
| EvOpenOutput (path : string)
| EvWrite (path : string) (text : string)
| EvCloseOutput (path : string)
| EvStdinLine (line : string)
| EvCachedPath (path : string)
| EvOpenCompressed (path : string) (compression_type : option string)
| EvFileLine (line : string)
| EvReaderRead (path : string) (force_task : option string)
| EvPredictJson (input : JsonDict)
| EvPredictBatchJson (inputs : list JsonDict)
| EvPredictInstance (input : Instance)
| EvPredictBatchInstance (inputs : list Instance).

(** A computation: the events it performed, and its value or the
    exception that ended it. *)
Definition M (X : Type) : Type := (list event * result X)%type.

Definition ret {X} (x : X) : M X := ([], Ok x).
Definition raise {X} (e : exn) : M X := ([], Err e).
Definition emit (ev : event) : M unit := ([ev], Ok tt).

Definition bind {X Y} (m : M X) (f : X -> M Y) : M Y :=
  match m with
  | (t, Ok x) => let (t', r) := f x in (t ++ t', r)
  | (t, Err e) => (t, Err e)
  end.

Definition trace {X} (m : M X) : list event := fst m.
Definition value {X} (m : M X) : result X := snd m.

(** A generator, as the steps a consumer meets when it pulls: an
    effect of the generator's body, a yielded value, the return of the
    body, or an exception raised in it.  Nothing of a step happens
    before the consumer reaches it. *)
Inductive gen (A : Type) : Type :=
| GDone
| GRaise (e : exn)
| GDo (ev : event) (k : gen A)
| GYield (a : A) (k : gen A).

Arguments GDone {A}.
Arguments GRaise {A} e.
Arguments GDo {A} ev k.
Arguments GYield {A} a k.

(** [for a in g: s = body(a, s)] *)
Fixpoint for_each {A S} (g : gen A) (body : A -> S -> M S) (s : S) : M S :=
  match g with
  | GDone => ret s
  | GRaise e => raise e
  | GDo ev k => bind (emit ev) (fun _ => for_each k body s)
  | GYield a k => bind (body a s) (fun s' => for_each k body s')
  end.

(** [yield] every element of a list, then go on as [k]. *)
Fixpoint yield_all {A} (l : list A) (k : gen A) : gen A :=
  match l with
  | [] => k
  | a :: l' => GYield a (yield_all l' k)
  end.

(** [zip(l, g)] for a list and a generator: the list is asked first,
    so the generator is not pulled once the list is exhausted. *)
Fixpoint zip {A B} (g : gen B) (l : list A) {struct g} : gen (A * B) :=
  match l with
  | [] => GDone
  | a :: l' =>
      match g with
      | GDone => GDone
      | GRaise e => GRaise e
      | GDo ev k => GDo ev (zip k l)
      | GYield b k => GYield (a, b) (zip k l')
      end
  end.

(** The values a generator yields, its effects, and how it ends. *)
Fixpoint gen_items {A} (g : gen A) : list A :=
  match g with
  | GDone | GRaise _ => []
  | GDo _ k => gen_items k
  | GYield a k => a :: gen_items k
  end.

Fixpoint gen_events {A} (g : gen A) : list event :=
  match g with
  | GDone | GRaise _ => []
  | GDo ev k => ev :: gen_events k
  | GYield _ k => gen_events k
  end.

Fixpoint gen_exn {A} (g : gen A) : option exn :=
  match g with
  | GDone => None
  | GRaise e => Some e
  | GDo _ k | GYield _ k => gen_exn k
  end.

(** Modelled from the spec: the grouping of [lazy_groups_of], a function
    of [allennlp.common.util] whose source is outside [predict.py].  The
    spec has the records consumed lazily "in fixed-size, order-preserving
    batches", a batch being "an ordered, fixed-maximum-size group of Input
    Records, last batch of a stream may be smaller".  The source is pulled
    until [n] records are at hand or it is exhausted; a group that is not
    empty is yielded; the source is not touched again before the next
    group is asked for.  [acc] holds the records of the group being
    collected. *)
Fixpoint lazy_groups_from {A} (g : gen A) (n : nat) (acc : list A)
  : gen (list A) :=
  match g with
  | GDone =>
      match acc with
      | [] => GDone
      | _ => GYield acc GDone
      end
  | GRaise e => GRaise e
  | GDo ev k => GDo ev (lazy_groups_from k n acc)
  | GYield a k =>
      let acc' := acc ++ [a] in
      if (List.length acc' =? n)%nat then GYield acc' (lazy_groups_from k n [])
      else lazy_groups_from k n acc'
  end.

(** Modelled from the spec: [lazy_groups_of(iterable, group_size)].  The
    spec gives no meaning to a size below 1: the model yields no group
    there and does not pull the source; the statements below that need a
    group to be formed assume [1 <= group_size]. *)
Definition lazy_groups_of {A} (g : gen A) (group_size : Z) : gen (list A) :=
  if (group_size <? 1)%Z then GDone
  else lazy_groups_from g (Z.to_nat group_size) [].

Notation "x <- m ;; k" := (bind m (fun x => k))
  (at level 61, m at next level, right associativity).
Notation "m ;;; k" := (bind m (fun _ => k))
  (at level 61, right associativity).

(** ** The collaborators

    The predictor, the dataset reader and the functions of the
    framework and of Python's library that the module calls are taken
    as they come.  An operation of the predictor is a function: it
    returns, and has no effect this module can see.  A function that can
    fail returns a [result]. *)

(** What a dataset reader delivers for a path: the instances it yields,
    and the exception that ended the reading, if any. *)
Record read_stream : Type := {
  rs_instances : list Instance;
  rs_failure : option exn
}.

Record DatasetReader : Type := {
  (** [isinstance(reader, MultiTaskDatasetReader)] *)
  is_MultiTaskDatasetReader : bool;
  (** [reader.read(path)] and [reader.read(path, force_task=head)] *)
  read : string -> option string -> read_stream
}.

Record Predictor : Type := {
  (** the attribute [predictor._dataset_reader] *)
  Predictor_dataset_reader : option DatasetReader;
  predict_json : JsonDict -> JsonDict;
  predict_batch_json : list JsonDict -> list JsonDict;
  predict_instance : Instance -> JsonDict;
  predict_batch_instance : list Instance -> list JsonDict;
  load_line : string -> JsonDict;
  dump_line : JsonDict -> string
}.

(** What an opened input file delivers: its text, and the exception
    that ended the reading, if any. *)
Record text_stream : Type := {
  ts_content : string;
  ts_failure : option exn
}.

Record Env : Type := {
  (** the text waiting on [sys.stdin] *)
  stdin : string;
  cached_path : string -> result string;
  (** [open_compressed(path)] and
      [open_compressed(path, compression_type=c)] *)
  open_compressed : string -> option string -> result text_stream;
  (** [open(path, "w")] *)
  open_for_writing : string -> result unit;
  json_dumps : JsonDict -> string;
  (** [str(instance)] *)
  str : Instance -> string;
  check_for_gpu : Z -> result unit;
  (** [load_archive(archive_file, weights_file=, cuda_device=, overrides=)] *)
  load_archive : string -> option string -> Z -> string -> result Archive;
  json_loads : string -> result JsonDict;
  (** the dictionary [{}] *)
  empty_dict : JsonDict;
  (** [Predictor.from_archive(archive, name, dataset_reader_to_load=,
      extra_args=)] *)
  from_archive :
    Archive -> option string -> string -> JsonDict -> result Predictor
}.

Definition lift {X} (r : result X) : M X := ([], r).

(** ** [_get_predictor] *)

Definition _get_predictor (env : Env) (args : Namespace.t) : M Predictor :=
  lift (check_for_gpu env (Namespace.cuda_device args)) ;;;
  archive <- lift (load_archive env
                     (Namespace.archive_file args)
                     (Namespace.weights_file args)
                     (Namespace.cuda_device args)
                     (Namespace.overrides args)) ;;
  let predictor_args := PyStr.strip (Namespace.predictor_args args) in
  predictor_args <-
    (if (String.length predictor_args <=? 0)%nat then ret (empty_dict env)
     else lift (json_loads env predictor_args)) ;;
  lift (from_archive env archive
          (Namespace.predictor args)
          (Namespace.dataset_reader_choice args)
          predictor_args).

(** ** [_PredictManager] *)

Record _PredictManager : Type := {
  _predictor : Predictor;
  _input_file : string;
  (** the open output file, named by its path *)
  _output_file : option string;
  _batch_size : Z;
  _print_to_console : bool;
  _dataset_reader : option DatasetReader;
  compression_type : option string;
  _multitask_head : option string
}.

(** [isinstance(reader, MultiTaskDatasetReader)], false of [None] *)
Definition isinstance_MultiTaskDatasetReader
    (reader : option DatasetReader) : bool :=
  match reader with
  | Some r => is_MultiTaskDatasetReader r
  | None => false
  end.

Definition is_None {X} (x : option X) : bool :=
  match x with
  | None => true
  | Some _ => false
  end.

Definition __init__ (env : Env) (predictor : Predictor)
    (input_file : string) (output_file : option string) (batch_size : Z)
    (print_to_console has_dataset_reader : bool)
    (compression_type multitask_head : option string)
  : M _PredictManager :=
  opened <-
    match output_file with
    | None => ret None
    | Some path =>
        emit (EvOpenOutput path) ;;;
        lift (open_for_writing env path) ;;;
        ret (Some path)
    end ;;
  let self := {|
    _predictor := predictor;
    _input_file := input_file;
    _output_file := opened;
    _batch_size := batch_size;
    _print_to_console := print_to_console;
    _dataset_reader :=
      if negb has_dataset_reader then None
      else Predictor_dataset_reader predictor;
    compression_type := compression_type;
    _multitask_head := multitask_head
  |} in
  (if negb (is_None (_multitask_head self)) then
     (if is_None (_dataset_reader self) then
        raise (ConfigurationError
                 "You must use a dataset reader when using --multitask-head.")
      else ret tt) ;;;
     (if negb (isinstance_MultiTaskDatasetReader (_dataset_reader self)) then
        raise (ConfigurationError
                 "--multitask-head only works with a multitask dataset reader.")
      else ret tt)
   else ret tt) ;;;
  (if isinstance_MultiTaskDatasetReader (_dataset_reader self)
      && is_None (_multitask_head self)
   then
     raise (ConfigurationError
              "You must specify --multitask-head when using a multitask dataset reader.")
   else ret tt) ;;;
  ret self.

(** [for output in results: yield self._predictor.dump_line(output)] *)
Definition yield_lines (self : _PredictManager) (results : list JsonDict)
  : gen string :=
  yield_all (map (dump_line (_predictor self)) results) GDone.

Definition _predict_json (self : _PredictManager)
    (batch_data : list JsonDict) : gen string :=
  if (List.length batch_data =? 1)%nat then
    match batch_data with
    | x :: _ =>
        GDo (EvPredictJson x)
          (yield_lines self [predict_json (_predictor self) x])
    | [] => GRaise (OtherError "IndexError")
    end
  else
    GDo (EvPredictBatchJson batch_data)
      (yield_lines self (predict_batch_json (_predictor self) batch_data)).

Definition _predict_instances (self : _PredictManager)
    (batch_data : list Instance) : gen string :=
  if (List.length batch_data =? 1)%nat then
    match batch_data with
    | x :: _ =>
        GDo (EvPredictInstance x)
          (yield_lines self [predict_instance (_predictor self) x])
    | [] => GRaise (OtherError "IndexError")
    end
  else
    GDo (EvPredictBatchInstance batch_data)
      (yield_lines self
         (predict_batch_instance (_predictor self) batch_data)).

Definition _maybe_print_to_console_and_file (self : _PredictManager)
    (index : nat) (prediction : string) (model_input : option string)
  : M unit :=
  (if _print_to_console self then
     match model_input with
     | Some m =>
         emit (EvPrint [("input " ++ PyStr.of_nat index ++ ": ")%string; m])
     | None => ret tt
     end ;;;
     emit (EvPrint ["prediction: "; prediction])
   else ret tt) ;;;
  match _output_file self with
  | Some f => emit (EvWrite f prediction)
  | None => ret tt
  end.

(** [for line in stream: if not line.isspace(): yield load_line(line)],
    then go on as [k]; [ev] tells where the line was read from. *)
Fixpoint load_lines (predictor : Predictor) (ev : string -> event)
    (lines : list string) (k : gen JsonDict) : gen JsonDict :=
  match lines with
  | [] => k
  | line :: rest =>
      GDo (ev line)
        (if negb (PyStr.isspace line) then
           GYield (load_line predictor line)
             (load_lines predictor ev rest k)
         else load_lines predictor ev rest k)
  end.

(** [except OSError: print(message)]; any other exception goes on. *)
Definition except_OSError {A} (message : string) (e : exn) : gen A :=
  match e with
  | OSError _ => GDo (EvPrint [message]) GDone
  | _ => GRaise e
  end.

(** The [try] block of [_get_json_data]: open, read line by line, and
    handle an [OSError] of the opening or of the reading. *)
Definition try_open_compressed (env : Env) (self : _PredictManager)
    (input_file : string) (compression : option string) (message : string)
  : gen JsonDict :=
  GDo (EvOpenCompressed input_file compression)
    match open_compressed env input_file compression with
    | Err e => except_OSError message e
    | Ok file_input =>
        load_lines (_predictor self) EvFileLine
          (PyStr.lines (ts_content file_input))
          match ts_failure file_input with
          | None => GDone
          | Some e => except_OSError message e
          end
    end.

Definition _get_json_data (env : Env) (self : _PredictManager)
  : gen JsonDict :=
  if (_input_file self =? "-")%string then
    load_lines (_predictor self) EvStdinLine (PyStr.lines (stdin env)) GDone
  else
    GDo (EvCachedPath (_input_file self))
      match cached_path env (_input_file self) with
      | Err e => GRaise e
      | Ok input_file =>
          match compression_type self with
          | None =>
              try_open_compressed env self input_file None
                "Automatic detection failed, please specify the compression type argument."
          | Some c =>
              try_open_compressed env self input_file (Some c)
                "please specify the correct compression type argument."
          end
      end.

(** [yield from reader.read(...)] *)
Definition yield_from_read (reader : DatasetReader) (path : string)
    (force_task : option string) : gen Instance :=
  GDo (EvReaderRead path force_task)
    (let stream := read reader path force_task in
     yield_all (rs_instances stream)
       match rs_failure stream with
       | None => GDone
       | Some e => GRaise e
       end).

Definition _get_instance_data (self : _PredictManager) : gen Instance :=
  if (_input_file self =? "-")%string then
    GRaise (ConfigurationError
              "stdin is not an option when using a DatasetReader.")
  else
    match _dataset_reader self with
    | None =>
        GRaise (ConfigurationError
                  "To generate instances directly, pass a DatasetReader.")
    | Some reader =>
        if is_MultiTaskDatasetReader reader then
          match _multitask_head self with
          | None => GRaise AssertionError
          | Some head =>
              yield_from_read reader (_input_file self) (Some head)
          end
        else yield_from_read reader (_input_file self) None
    end.

(** The body of the inner loops of [run]: one record and its result. *)
Definition emit_pair {A} (self : _PredictManager) (show : A -> string)
    (pair : A * string) (index : nat) : M nat :=
  let (model_input, result) := pair in
  _maybe_print_to_console_and_file self index result
    (Some (show model_input)) ;;;
  ret (index + 1).

(** The inner loop of [run], for one batch:
    [for model_input, result in zip(batch, predict(batch)): ...] *)
Definition for_batch {A} (self : _PredictManager) (show : A -> string)
    (predict : list A -> gen string) (batch : list A) (index : nat)
  : M nat :=
  for_each (zip (predict batch) batch) (emit_pair self show) index.

(** The outer loop of [run], with [index] starting at 0:
    [for batch in lazy_groups_of(source, self._batch_size): ...] *)
Definition for_batches {A} (self : _PredictManager) (show : A -> string)
    (predict : list A -> gen string) (source : gen A) : M nat :=
  for_each (lazy_groups_of source (_batch_size self))
    (for_batch self show predict) 0.

Definition run (env : Env) (self : _PredictManager) : M unit :=
  let has_reader := negb (is_None (_dataset_reader self)) in
  (if has_reader then
     for_batches self (str env) (_predict_instances self)
       (_get_instance_data self)
   else
     for_batches self (json_dumps env) (_predict_json self)
       (_get_json_data env self)) ;;;
  match _output_file self with
  | Some f => emit (EvCloseOutput f)
  | None => ret tt
  end.

(** ** [_predict] *)

Definition _predict (env : Env) (args : Namespace.t) : M unit :=
  emit (EvSetFileFriendlyLogging (Namespace.file_friendly_logging args)) ;;;
  predictor <- _get_predictor env args ;;
  (if Namespace.silent args && negb (PyStr.truthy (Namespace.output_file args))
   then
     emit (EvPrint ["--silent specified without --output-file."]) ;;;
     emit (EvPrint ["Exiting early because no output will be created."]) ;;;
     raise (SystemExit 0)
   else ret tt) ;;;
  manager <- __init__ env predictor
               (Namespace.input_file args)
               (Namespace.output_file args)
               (Namespace.batch_size args)
               (negb (Namespace.silent args))
               (Namespace.use_dataset_reader args)
               (Namespace.multitask_head args)
               None ;;
  run env manager.

(** ** Reading a trace

    The vocabulary of the statements below: what a trace shows of the
    records handed to the predictor, of the output of [run], and of the
    input and the output file. *)

(** The lines [_maybe_print_to_console_and_file] prints and writes:
    a [print] of two arguments, or a write to the output file. *)
Definition is_record_output (ev : event) : bool :=
  match ev with
  | EvWrite _ _ => true
  | EvPrint [_; _] => true
  | _ => false
  end.

Definition is_input_read (ev : event) : bool :=
  match ev with
  | EvStdinLine _ | EvCachedPath _ | EvOpenCompressed _ _
  | EvFileLine _ | EvReaderRead _ _ => true
  | _ => false
  end.

Definition is_prediction (ev : event) : bool :=
  match ev with
  | EvPredictJson _ | EvPredictBatchJson _
  | EvPredictInstance _ | EvPredictBatchInstance _ => true
  | _ => false
  end.

Definition is_open_output (ev : event) : bool :=
  match ev with
  | EvOpenOutput _ => true
  | _ => false
  end.

Definition is_close_output (ev : event) : bool :=
  match ev with
  | EvCloseOutput _ => true
  | _ => false
  end.

(** The events of a trace that satisfy [keep], in order. *)
Definition only (keep : event -> bool) (t : list event) : list event :=
  flat_map (fun ev => if keep ev then [ev] else []) t.

(** What [run] printed and wrote for the records, in order. *)
Definition record_outputs (t : list event) : list event :=
  only is_record_output t.

(** The text written to the output file, write after write. *)
Definition written (t : list event) : list string :=
  flat_map (fun ev => match ev with EvWrite _ s => [s] | _ => [] end) t.

(** The second argument of each [print("prediction: ", ...)]. *)
Definition printed_predictions (t : list event) : list string :=
  flat_map (fun ev =>
              match ev with
              | EvPrint [label; p] =>
                  if (label =? "prediction: ")%string then [p] else []
              | _ => []
              end) t.

(** The records handed to the predictor, call after call. *)
Definition predicted_json (t : list event) : list JsonDict :=
  flat_map (fun ev =>
              match ev with
              | EvPredictJson x => [x]
              | EvPredictBatchJson xs => xs
              | _ => []
              end) t.

Definition predicted_instances (t : list event) : list Instance :=
  flat_map (fun ev =>
              match ev with
              | EvPredictInstance x => [x]
              | EvPredictBatchInstance xs => xs
              | _ => []
              end) t.

(** A call of the predictor that fits the size of its batch: the batch
    operations are called on two records or more. *)
Definition call_fits_batch (ev : event) : bool :=
  match ev with
  | EvPredictBatchJson xs => (2 <=? List.length xs)%nat
  | EvPredictBatchInstance xs => (2 <=? List.length xs)%nat
  | _ => true
  end.

(** What [run] prints and writes for a sequence of records, given as
    the pairs of the text shown for a record and of its prediction line,
    the first one being numbered [index]. *)
Fixpoint outputs_for (self : _PredictManager) (index : nat)
    (pairs : list (string * string)) : list event :=
  match pairs with
  | [] => []
  | (model_input, line) :: rest =>
      trace (_maybe_print_to_console_and_file self index line
               (Some model_input))
      ++ outputs_for self (index + 1) rest
  end.

(** The same manager with another batch size. *)
Definition with_batch_size (self : _PredictManager) (k : Z)
  : _PredictManager := {|
  _predictor := _predictor self;
  _input_file := _input_file self;
  _output_file := _output_file self;
  _batch_size := k;
  _print_to_console := _print_to_console self;
  _dataset_reader := _dataset_reader self;
  compression_type := compression_type self;
  _multitask_head := _multitask_head self
|}.

(** The predictor answers a batch record by record: [R] relates every
    record to the result at its place, for the single operation and for
    the batch operation. *)
Definition answers_in_order {A} (R : A -> JsonDict -> Prop)
    (single : A -> JsonDict) (batch : list A -> list JsonDict) : Prop :=
  (forall x, R x (single x)) /\ (forall xs, Forall2 R xs (batch xs)).

(** The combinations of a dataset reader and a head name that the
    constructor refuses: a head with no reader, a head with a reader that
    is not a multitask reader, and a multitask reader with no head. *)
Definition refused_combination (reader : option DatasetReader)
    (multitask_head : option string) : bool :=
  (negb (is_None multitask_head) && is_None reader)
  || (negb (is_None multitask_head)
      && negb (isinstance_MultiTaskDatasetReader reader))
  || (isinstance_MultiTaskDatasetReader reader && is_None multitask_head).

(** The two parts of [run]: the loops, and the closing of the output
    file. *)
Definition run_loop (env : Env) (self : _PredictManager) : M nat :=
  if negb (is_None (_dataset_reader self)) then
    for_batches self (str env) (_predict_instances self)
      (_get_instance_data self)
  else
    for_batches self (json_dumps env) (_predict_json self)
      (_get_json_data env self).

Definition close_output (self : _PredictManager) : M unit :=
  match _output_file self with
  | Some f => emit (EvCloseOutput f)
  | None => ret tt
  end.

(** The source of records of [run] is read to its end: the generator
    of the mode at hand does not raise. *)
Definition source_completes (env : Env) (self : _PredictManager) : Prop :=
  match _dataset_reader self with
  | Some _ => gen_exn (_get_instance_data self) = None
  | None => gen_exn (_get_json_data env self) = None
  end.

(** The effects of the sources of records: reading the input, and the
    one-argument [print] of the message about the compression type. *)
Definition is_source_event (ev : event) : bool :=
  match ev with
  | EvPrint [_] => true
  | _ => is_input_read ev
  end.

(** The lines of a list of results. *)
Definition lines_of (self : _PredictManager) (rs : list JsonDict)
  : list string :=
  map (dump_line (_predictor self)) rs.

(** The call a batch leads to, and the answers it gets, in the two
    modes. *)
Definition call_json (batch : list JsonDict) : event :=
  match batch with
  | [x] => EvPredictJson x
  | _ => EvPredictBatchJson batch
  end.

Definition results_json (self : _PredictManager) (batch : list JsonDict)
  : list JsonDict :=
  match batch with
  | [x] => [predict_json (_predictor self) x]
  | _ => predict_batch_json (_predictor self) batch
  end.

Definition call_instances (batch : list Instance) : event :=
  match batch with
  | [x] => EvPredictInstance x
  | _ => EvPredictBatchInstance batch
  end.

Definition results_instances (self : _PredictManager)
    (batch : list Instance) : list JsonDict :=
  match batch with
  | [x] => [predict_instance (_predictor self) x]
  | _ => predict_batch_instance (_predictor self) batch
  end.

(** The trace [t] of a run shows one output per record of [records],
    in their order: there are results [rs], one per record and related
    to it by [R]; what the run printed and wrote is what
    [_maybe_print_to_console_and_file] does for the first record and its
    result numbered 0, then for the second numbered 1, and so on; hence
    the output file, when there is one, received the lines of the
    results, and so did the console, when printing is on. *)
Definition one_output_per_record {A} (self : _PredictManager)
    (t : list event) (R : A -> JsonDict -> Prop) (show : A -> string)
    (records : list A) : Prop :=
  exists rs,
    Forall2 R records rs
    /\ record_outputs t
       = outputs_for self 0 (combine (map show records) (lines_of self rs))
    /\ (_output_file self <> None -> written t = lines_of self rs)
    /\ (_print_to_console self = true
        -> printed_predictions t = lines_of self rs).

(** The dataset reader the constructor attaches. *)
Definition configured_reader (predictor : Predictor)
    (has_dataset_reader : bool) : option DatasetReader :=
  if negb has_dataset_reader then None
  else Predictor_dataset_reader predictor.

(** An event that neither opens nor closes the output file. *)
Definition no_open_no_close (ev : event) : Prop :=
  is_open_output ev = false /\ is_close_output ev = false.

(** [for a in l: s = body(a, s)] over a list. *)
Fixpoint for_list {A S} (l : list A) (body : A -> S -> M S) (s : S) : M S :=
  match l with
  | [] => ret s
  | a :: l' => bind (body a s) (fun s' => for_list l' body s')
  end.

(** ** More ways to read a trace *)

(** A [print] of two arguments: the input of a record or its
    prediction. *)
Definition is_record_print (ev : event) : bool :=
  match ev with
  | EvPrint [_; _] => true
  | _ => false
  end.

Definition is_write (ev : event) : bool :=
  match ev with
  | EvWrite _ _ => true
  | _ => false
  end.

Definition is_batch_call (ev : event) : bool :=
  match ev with
  | EvPredictBatchJson _ | EvPredictBatchInstance _ => true
  | _ => false
  end.

(** A call of a batch operation on two records at least and on [n] at
    most. *)
Definition batch_call_within (n : Z) (ev : event) : bool :=
  match ev with
  | EvPredictBatchJson xs =>
      (2 <=? List.length xs)%nat && (Z.of_nat (List.length xs) <=? n)%Z
  | EvPredictBatchInstance xs =>
      (2 <=? List.length xs)%nat && (Z.of_nat (List.length xs) <=? n)%Z
  | _ => true
  end.

(** The label [f"input {index}: "]. *)
Definition input_label (index : nat) : string :=
  ("input " ++ PyStr.of_nat index ++ ": ")%string.

(** The two arguments of each [print] of an input. *)
Definition printed_inputs (t : list event) : list (string * string) :=
  flat_map (fun ev =>
              match ev with
              | EvPrint [label; m] =>
                  if (label =? "prediction: ")%string then []
                  else [(label, m)]
              | _ => []
              end) t.

(** The source of records of [run], which the mode selects, as its
    effects and the exception that ends it, if any. *)
Definition source_events (env : Env) (self : _PredictManager) : list event :=
  match _dataset_reader self with
  | Some _ => gen_events (_get_instance_data self)
  | None => gen_events (_get_json_data env self)
  end.

Definition source_exn (env : Env) (self : _PredictManager) : option exn :=
  match _dataset_reader self with
  | Some _ => gen_exn (_get_instance_data self)
  | None => gen_exn (_get_json_data env self)
  end.

(** The manager that [__init__] returns when it returns one. *)
Definition constructed (predictor : Predictor) (input_file : string)
    (output_file : option string) (batch_size : Z)
    (print_to_console has_dataset_reader : bool)
    (compression multitask_head : option string) : _PredictManager := {|
  _predictor := predictor;
  _input_file := input_file;
  _output_file := output_file;
  _batch_size := batch_size;
  _print_to_console := print_to_console;
  _dataset_reader := configured_reader predictor has_dataset_reader;
  compression_type := compression;
  _multitask_head := multitask_head
|}.

(** The output file opens, if one is asked for. *)
Definition output_opens (env : Env) (output_file : option string) : Prop :=
  match output_file with
  | Some path => open_for_writing env path = Ok tt
  | None => True
  end.

(** A [print] of one argument: a message. *)
Definition is_message_print (ev : event) : bool :=
  match ev with
  | EvPrint [_] => true
  | _ => false
  end.

(** The message of the handler of [OSError] in [_get_json_data], which
    depends on whether a compression type is set. *)
Definition oserror_message (self : _PredictManager) : string :=
  match compression_type self with
  | None =>
      "Automatic detection failed, please specify the compression type argument."
  | Some _ => "please specify the correct compression type argument."
  end.

(** The call of the predictor follows the length of the batch: the
    single-record operation for a batch of exactly one record, the batch
    operation for a batch of more than one. *)
Definition json_call_follows_length (batch : list JsonDict) (ev : event)
  : Prop :=
  (forall x, batch = [x] -> ev = EvPredictJson x)
  /\ (1 < List.length batch -> ev = EvPredictBatchJson batch).

Definition instance_call_follows_length (batch : list Instance) (ev : event)
  : Prop :=
  (forall x, batch = [x] -> ev = EvPredictInstance x)
  /\ (1 < List.length batch -> ev = EvPredictBatchInstance batch).

(** The lines of a text that are not of whitespace only, loaded. *)
Definition loaded_records (self : _PredictManager) (content : string)
  : list JsonDict :=
  map (load_line (_predictor self))
    (filter (fun l => negb (PyStr.all_space l)) (PyStr.lines content)).

End Predict.

Arguments GDone {JsonDict Instance A}.
Arguments GRaise {JsonDict Instance A} e.
Arguments GDo {JsonDict Instance A} ev k.
Arguments GYield {JsonDict Instance A} a k.

(** ** A small concrete setting

    Records and instances are strings; the predictor wraps its input in
    [P(...)], its batch operation maps the single one, and a line is
    loaded as it is.  The environment has one readable file, one file
    whose opening fails, and an output directory that does not exist. *)

Module Bench.

Definition nl : string := String PyStr.newline EmptyString.

Definition plain_reader : DatasetReader (Instance := string) := {|
  is_MultiTaskDatasetReader := false;
  read := fun path _ =>
    {| rs_instances := [(path ++ "#0")%string; (path ++ "#1")%string;
                        (path ++ "#2")%string];
       rs_failure := None |}
|}.

Definition multitask_reader : DatasetReader (Instance := string) := {|
  is_MultiTaskDatasetReader := true;
  read := fun path head =>
    {| rs_instances :=
         match head with
         | Some h => [(h ++ ":" ++ path ++ "#0")%string]
         | None => []
         end;
       rs_failure := None |}
|}.

Definition wrap (x : string) : string := ("P(" ++ x ++ ")")%string.

Definition predictor_with (reader : option DatasetReader)
  : Predictor (JsonDict := string) (Instance := string) := {|
  Predictor_dataset_reader := reader;
  predict_json := wrap;
  predict_batch_json := map wrap;
  predict_instance := wrap;
  predict_batch_instance := map wrap;
  load_line := fun line => line;
  dump_line := fun r => (r ++ nl)%string
|}.

Definition predictor : Predictor := predictor_with (Some plain_reader).

Definition three_lines : string :=
  ("a" ++ nl ++ "  " ++ nl ++ "b" ++ nl ++ nl ++ "c")%string.

Definition env : Env (Archive := unit) := {|
  stdin := three_lines;
  cached_path := fun p => Ok p;
  open_compressed := fun p _ =>
    if (p =? "in.jsonl")%string then
      Ok {| ts_content := three_lines; ts_failure := None |}
    else Err (OSError "not a known compression format");
  open_for_writing := fun p =>
    if (p =? "out.jsonl")%string then Ok tt
    else Err (OSError "No such file or directory");
  json_dumps := fun x => x;
  str := fun x => x;
  check_for_gpu := fun device =>
    if (device <? 1)%Z then Ok tt
    else Err (ConfigurationError "Experiment specified a GPU but none is available");
  load_archive := fun _ _ _ _ => Ok tt;
  json_loads := fun s => Ok s;
  empty_dict := "{}";
  from_archive := fun _ _ _ _ => Ok predictor
|}.

Definition manager (input : string) (output : option string)
    (batch_size : Z) (console reader : bool) : _PredictManager := {|
  _predictor := predictor;
  _input_file := input;
  _output_file := output;
  _batch_size := batch_size;
  _print_to_console := console;
  _dataset_reader := if reader then Some plain_reader else None;
  compression_type := None;
  _multitask_head := None
|}.

(** [predict model.tar.gz <input>] with some of the options. *)
Definition args (input : string) (output head : option string)
    (silent reader : bool) (device : Z) : Namespace.t := {|
  Namespace.archive_file := "model.tar.gz";
  Namespace.input_file := input;
  Namespace.output_file := output;
  Namespace.weights_file := None;
  Namespace.batch_size := 1;
  Namespace.silent := silent;
  Namespace.cuda_device := device;
  Namespace.use_dataset_reader := reader;
  Namespace.dataset_reader_choice := "validation";
  Namespace.compression_type := None;
  Namespace.multitask_head := head;
  Namespace.overrides := "";
  Namespace.predictor := None;
  Namespace.predictor_args := "";
  Namespace.file_friendly_logging := false
|}.

End Bench.

(** ** A setting with failures

    A dataset reader whose reading fails after three instances, a
    predictor whose batch operation returns one result only, and an
    environment with an input file that is missing, one whose reading
    breaks off, one whose opening fails with an error that is not an
    [OSError], and a text that [json.loads] refuses. *)

Module Faults.

Definition failing_reader : DatasetReader (Instance := string) := {|
  is_MultiTaskDatasetReader := false;
  read := fun path _ =>
    {| rs_instances := [(path ++ "#0")%string; (path ++ "#1")%string;
                        (path ++ "#2")%string];
       rs_failure := Some (OtherError "corrupt record") |}
|}.

Definition short_predictor
  : Predictor (JsonDict := string) (Instance := string) := {|
  Predictor_dataset_reader := None;
  predict_json := Bench.wrap;
  predict_batch_json := fun xs => map Bench.wrap (firstn 1 xs);
  predict_instance := Bench.wrap;
  predict_batch_instance := fun xs => map Bench.wrap (firstn 1 xs);
  load_line := fun line => line;
  dump_line := fun r => (r ++ Bench.nl)%string
|}.

Definition two_lines : string :=
  ("a" ++ Bench.nl ++ "b" ++ Bench.nl)%string.

(** The environment in which [from_archive] yields [p]. *)
Definition env_of (p : Predictor (JsonDict := string) (Instance := string))
  : Env (Archive := unit) := {|
  stdin := Bench.three_lines;
  cached_path := fun path =>
    if (path =? "gone.jsonl")%string
    then Err (OSError "No such file or directory")
    else Ok path;
  open_compressed := fun path _ =>
    if (path =? "in.jsonl")%string then
      Ok {| ts_content := Bench.three_lines; ts_failure := None |}
    else if (path =? "cut.gz")%string then
      Ok {| ts_content := two_lines;
            ts_failure := Some (OSError "unexpected end of file") |}
    else if (path =? "odd.bin")%string then
      Err (OtherError "LookupError")
    else Err (OSError "not a known compression format");
  open_for_writing := fun path =>
    if (path =? "out.jsonl")%string then Ok tt
    else Err (OSError "No such file or directory");
  json_dumps := fun x => x;
  str := fun x => x;
  check_for_gpu := fun device =>
    if (device <? 1)%Z then Ok tt
    else Err (ConfigurationError
                "Experiment specified a GPU but none is available");
  load_archive := fun _ _ _ _ => Ok tt;
  json_loads := fun s =>
    if (s =? "{")%string then Err (OtherError "JSONDecodeError") else Ok s;
  empty_dict := "{}";
  from_archive := fun _ _ _ _ => Ok p
|}.

Definition env : Env := env_of Bench.predictor.

(** A manager of predictor [p] with reader [reader]. *)
Definition manager_of
    (p : Predictor (JsonDict := string) (Instance := string))
    (reader : option DatasetReader) (input : string)
    (output compression : option string) (batch_size : Z) (console : bool)
  : _PredictManager := {|
  _predictor := p;
  _input_file := input;
  _output_file := output;
  _batch_size := batch_size;
  _print_to_console := console;
  _dataset_reader := reader;
  compression_type := compression;
  _multitask_head := None
|}.

(** [predict model.tar.gz in.jsonl --predictor-args <text>] *)
Definition args_with_predictor_args (text : string) : Namespace.t := {|
  Namespace.archive_file := "model.tar.gz";
  Namespace.input_file := "in.jsonl";
  Namespace.output_file := None;
  Namespace.weights_file := None;
  Namespace.batch_size := 1;
  Namespace.silent := false;
  Namespace.cuda_device := (-1);
  Namespace.use_dataset_reader := false;
  Namespace.dataset_reader_choice := "validation";
  Namespace.compression_type := None;
  Namespace.multitask_head := None;
  Namespace.overrides := "";
  Namespace.predictor := None;
  Namespace.predictor_args := text;
  Namespace.file_friendly_logging := false
|}.

End Faults.

(** ** Computations and loops *)

Section Loops.

Context {JsonDict Instance : Type}.

Local Abbreviation event := (@event JsonDict Instance).
Local Abbreviation M := (@M JsonDict Instance).
Local Abbreviation gen := (@gen JsonDict Instance).

Lemma trace_bind {X Y} (m : M X) (f : X -> M Y) :
  trace (bind m f)
  = trace m ++ match value m with
               | Ok x => trace (f x)
               | Err _ => []
               end.
Proof.
  destruct m as [t [x | e]]; unfold bind, trace, value; simpl.
  - destruct (f x); reflexivity.
  - now rewrite app_nil_r.
Qed.

Lemma value_bind {X Y} (m : M X) (f : X -> M Y) :
  value (bind m f)
  = match value m with
    | Ok x => value (f x)
    | Err e => Err e
    end.
Proof.
  destruct m as [t [x | e]]; unfold bind, value; simpl; [| reflexivity].
  destruct (f x); reflexivity.
Qed.

Lemma M_eta {X} (m : M X) : m = (trace m, value m).
Proof. now destruct m. Qed.

Lemma flat_map_nil_Forall {X Y} (h : X -> list Y) (l : list X) :
  Forall (fun x => h x = []) l -> flat_map h l = [].
Proof.
  induction 1 as [| x l Hx _ IH]; simpl; [reflexivity |].
  now rewrite Hx, IH.
Qed.

Lemma combine_app_same {X Y} (l1 l2 : list X) (r1 r2 : list Y) :
  length l1 = length r1 ->
  combine (l1 ++ l2) (r1 ++ r2) = combine l1 r1 ++ combine l2 r2.
Proof.
  revert r1. induction l1 as [| x l1 IH]; intros [| y r1] Hlen;
    simpl in *; try discriminate; [reflexivity |].
  f_equal. apply IH. now injection Hlen.
Qed.

(** A projection of the trace that is blind to the effects of the
    generator sees a loop over the generator as the loop over the values
    it yields, provided the generator does not raise. *)
Lemma for_each_as_for_list {A S X} (h : event -> list X)
    (body : A -> S -> M S) (g : gen A) :
  gen_exn g = None ->
  Forall (fun ev => h ev = []) (gen_events g) ->
  forall s,
    flat_map h (trace (for_each g body s))
    = flat_map h (trace (for_list (gen_items g) body s))
    /\ value (for_each g body s) = value (for_list (gen_items g) body s).
Proof.
  induction g as [| e | ev k IH | a k IH];
    cbn [for_each for_list gen_exn gen_events gen_items]; intros Hexn Hev s.
  - split; reflexivity.
  - discriminate.
  - inversion Hev as [| ? ? Hh Hk]; subst.
    destruct (IH Hexn Hk s) as [IHt IHv].
    rewrite trace_bind, value_bind; simpl.
    rewrite Hh; simpl. now split.
  - rewrite !trace_bind, !value_bind, !flat_map_app.
    destruct (value (body a s)) as [s' | e]; [| now split].
    destruct (IH Hexn Hev s') as [IHt IHv].
    now rewrite IHt, IHv.
Qed.

(** A property of events that holds of the effects of the generator and
    of the events of every turn of the body holds of the whole loop,
    however it ends. *)
Lemma for_each_Forall {A S} (P : event -> Prop) (Q : A -> Prop)
    (body : A -> S -> M S) (g : gen A) :
  Forall P (gen_events g) ->
  Forall Q (gen_items g) ->
  (forall a s, Q a -> Forall P (trace (body a s))) ->
  forall s, Forall P (trace (for_each g body s)).
Proof.
  intros Hev Hit Hbody.
  induction g as [| e | ev k IH | a k IH];
    cbn [for_each gen_events gen_items] in *; intros s.
  - constructor.
  - constructor.
  - inversion Hev; subst. rewrite trace_bind; simpl.
    constructor; auto.
  - inversion Hit; subst. rewrite trace_bind.
    apply Forall_app; split; [now apply Hbody |].
    destruct (value (body a s)); [now apply IH | constructor].
Qed.

(** *** Grouping *)

Lemma lazy_groups_from_events {A} (g : gen A) (n : nat) :
  forall acc, gen_events (lazy_groups_from g n acc) = gen_events g.
Proof.
  induction g as [| e | ev k IH | a k IH]; simpl; intros acc.
  - now destruct acc.
  - reflexivity.
  - now rewrite IH.
  - destruct (length (acc ++ [a]) =? n)%nat; simpl; apply IH.
Qed.

Lemma lazy_groups_from_exn {A} (g : gen A) (n : nat) :
  forall acc, gen_exn (lazy_groups_from g n acc) = gen_exn g.
Proof.
  induction g as [| e | ev k IH | a k IH]; simpl; intros acc.
  - now destruct acc.
  - reflexivity.
  - apply IH.
  - destruct (length (acc ++ [a]) =? n)%nat; simpl; apply IH.
Qed.

(** Grouping neither drops nor reorders: the groups, one after the
    other, are the records at hand followed by those of the source. *)
Lemma lazy_groups_from_concat {A} (g : gen A) (n : nat) :
  forall acc,
    gen_exn g = None ->
    concat (gen_items (lazy_groups_from g n acc)) = acc ++ gen_items g.
Proof.
  induction g as [| e | ev k IH | a k IH]; simpl; intros acc Hexn.
  - destruct acc; simpl; [reflexivity | now rewrite !app_nil_r].
  - discriminate.
  - now apply IH.
  - destruct (length (acc ++ [a]) =? n)%nat; simpl.
    + rewrite IH by assumption. simpl. now rewrite <- app_assoc.
    + rewrite IH by assumption. now rewrite <- app_assoc.
Qed.

(** Every group holds at least one record and at most [n]. *)
Lemma lazy_groups_from_sizes {A} (g : gen A) (n : nat) :
  forall acc,
    length acc < n ->
    Forall (fun group => 1 <= length group <= n)
      (gen_items (lazy_groups_from g n acc)).
Proof.
  induction g as [| e | ev k IH | a k IH]; simpl; intros acc Hacc.
  - destruct acc; simpl; constructor; [simpl in *; lia | constructor].
  - constructor.
  - now apply IH.
  - destruct (Nat.eqb_spec (length (acc ++ [a])) n) as [Heq | Hne]; simpl.
    + constructor; [rewrite Heq; rewrite length_app in Heq; simpl in Heq; lia |].
      apply IH; simpl; lia.
    + apply IH. rewrite length_app in *; simpl in *; lia.
Qed.

End Loops.

(** ** One batch, and a sequence of batches *)

Section Batches.

Context {JsonDict Instance : Type}.

Local Abbreviation event := (@event JsonDict Instance).
Local Abbreviation M := (@M JsonDict Instance).
Local Abbreviation gen := (@gen JsonDict Instance).
Local Abbreviation _PredictManager := (@_PredictManager JsonDict Instance).

Variable self : _PredictManager.

Lemma maybe_print_trace (index : nat) (line model_input : string) :
  trace (_maybe_print_to_console_and_file self index line (Some model_input))
  = (if _print_to_console self then
       [EvPrint [("input " ++ PyStr.of_nat index ++ ": ")%string; model_input];
        EvPrint ["prediction: "; line]]
     else [])
    ++ match _output_file self with
       | Some f => [EvWrite f line]
       | None => []
       end.
Proof.
  unfold _maybe_print_to_console_and_file.
  destruct (_print_to_console self), (_output_file self); reflexivity.
Qed.

Lemma maybe_print_value (index : nat) (line : string) (m : option string) :
  value (_maybe_print_to_console_and_file self index line m) = Ok tt.
Proof.
  unfold _maybe_print_to_console_and_file.
  destruct (_print_to_console self), (_output_file self), m; reflexivity.
Qed.

Lemma emit_pair_eq {A} (show : A -> string) (a : A) (line : string)
    (index : nat) :
  emit_pair self show (a, line) index
  = (trace (_maybe_print_to_console_and_file self index line
              (Some (show a))),
     Ok (index + 1)).
Proof.
  unfold emit_pair.
  rewrite (M_eta (bind _ _)), trace_bind, value_bind, maybe_print_value.
  simpl. now rewrite app_nil_r.
Qed.

Lemma outputs_for_kind (pairs : list (string * string)) :
  forall index,
    Forall (fun ev : event => is_record_output ev = true)
      (outputs_for self index pairs).
Proof.
  induction pairs as [| [m line] rest IH]; intros index; simpl.
  - constructor.
  - apply Forall_app; split; [| apply IH].
    rewrite maybe_print_trace.
    destruct (_print_to_console self), (_output_file self);
      repeat constructor.
Qed.

Lemma outputs_for_app (l1 l2 : list (string * string)) :
  forall index,
    outputs_for self index (l1 ++ l2)
    = outputs_for self index l1 ++ outputs_for self (index + length l1) l2.
Proof.
  induction l1 as [| [m line] l1 IH]; intros index; simpl.
  - now rewrite Nat.add_0_r.
  - rewrite IH, <- app_assoc. do 3 f_equal. lia.
Qed.

Lemma only_all (keep : event -> bool) (t : list event) :
  Forall (fun ev => keep ev = true) t -> only keep t = t.
Proof.
  induction 1 as [| ev t Hev _ IH]; unfold only in *; simpl.
  - reflexivity.
  - now rewrite Hev, IH.
Qed.

Lemma record_outputs_outputs_for (index : nat) pairs :
  record_outputs (outputs_for self index pairs)
  = outputs_for self index pairs.
Proof. apply only_all, outputs_for_kind. Qed.

(** A projection that is blind to the output of [run] sees nothing in
    what is printed and written for the records. *)
Lemma blind_outputs_for {X} (h : event -> list X) (index : nat) pairs :
  (forall ev, is_record_output ev = true -> h ev = []) ->
  flat_map h (outputs_for self index pairs) = [].
Proof.
  intros Hh. apply flat_map_nil_Forall.
  eapply Forall_impl; [| apply outputs_for_kind]. exact Hh.
Qed.

(** The inner loop of [run] once the predictor has answered: the
    records of the batch and the lines are paired as [zip] pairs them. *)
Lemma inner_loop {A} (show : A -> string) (lines : list string) :
  forall (batch : list A) (index : nat),
    for_each (zip (yield_all lines GDone) batch) (emit_pair self show) index
    = (outputs_for self index (combine (map show batch) lines),
       Ok (index + length (combine batch lines))).
Proof.
  induction lines as [| line lines IH]; intros [| a batch] index;
    try (cbn; unfold ret; now rewrite Nat.add_0_r).
  cbn [yield_all zip for_each map combine outputs_for length].
  rewrite emit_pair_eq.
  unfold bind. rewrite IH. do 2 f_equal. lia.
Qed.

Section Mode.

(** The two input modes differ in the type of the records, in how a
    record is shown and in the operations of the predictor. *)
Variable A : Type.
Variable show : A -> string.
Variable predict : list A -> gen string.
Variable call : list A -> event.
Variable results : list A -> list JsonDict.

Hypothesis predict_eq :
  forall batch,
    predict batch = GDo (call batch) (yield_lines self (results batch)).

Hypothesis call_is_prediction :
  forall batch, is_prediction (call batch) = true.

Lemma for_batch_eq (batch : list A) (index : nat) :
  batch <> [] ->
  for_batch self show predict batch index
  = (call batch
       :: outputs_for self index
            (combine (map show batch) (lines_of self (results batch))),
     Ok (index + length (combine batch (lines_of self (results batch))))).
Proof.
  intros Hne. unfold for_batch. rewrite predict_eq.
  destruct batch as [| a batch]; [congruence |].
  cbn [zip for_each]. unfold yield_lines.
  rewrite (inner_loop show _ (a :: batch) index).
  reflexivity.
Qed.

Lemma call_not_output (batch : list A) :
  is_record_output (call batch) = false.
Proof.
  specialize (call_is_prediction batch).
  now destruct (call batch) as [| [| ? [| ? [| ? ?]]] | | | | | | | | | | | |].
Qed.

(** The calls of the predictor over a sequence of batches, for a
    projection that is blind to the output. *)
Lemma batches_calls {X} (h : event -> list X) (groups : list (list A)) :
  (forall ev, is_record_output ev = true -> h ev = []) ->
  Forall (fun group => 1 <= length group) groups ->
  forall index,
    flat_map h (trace (for_list groups (for_batch self show predict) index))
    = flat_map h (map call groups)
    /\ exists index',
        value (for_list groups (for_batch self show predict) index)
        = Ok index'.
Proof.
  intros Hh. induction 1 as [| group groups Hne _ IH]; intros index.
  - split; [reflexivity | now exists index].
  - cbn [for_list map flat_map].
    rewrite trace_bind, value_bind, for_batch_eq
      by (intros ->; simpl in Hne; lia).
    cbn [trace value fst snd].
    destruct (IH (index +
                  length (combine group (lines_of self (results group)))))
      as [IHt IHv].
    rewrite flat_map_app. cbn [flat_map].
    rewrite blind_outputs_for by assumption.
    now rewrite IHt, app_nil_r.
Qed.

(** What is printed and written over a sequence of batches, when the
    predictor answers record by record. *)
Lemma batches_outputs (R : A -> JsonDict -> Prop)
    (groups : list (list A)) :
  (forall batch, Forall2 R batch (results batch)) ->
  Forall (fun group => 1 <= length group) groups ->
  forall index,
    exists rs,
      Forall2 R (concat groups) rs
      /\ record_outputs
           (trace (for_list groups (for_batch self show predict) index))
         = outputs_for self index
             (combine (map show (concat groups)) (lines_of self rs))
      /\ value (for_list groups (for_batch self show predict) index)
         = Ok (index + length (concat groups)).
Proof.
  intros HR. induction 1 as [| group groups Hne _ IH]; intros index.
  - exists []. repeat split; [constructor | simpl; f_equal; lia].
  - specialize (HR group).
    assert (Hlen : length (results group) = length group)
      by (symmetry; eapply Forall2_length; eassumption).
    destruct (IH (index + length group)) as (rs & HRrs & Hout & Hval).
    exists (results group ++ rs).
    cbn [for_list concat].
    rewrite trace_bind, value_bind, for_batch_eq
      by (intros ->; simpl in Hne; lia).
    cbn [trace value fst snd].
    assert (Hcomb : length (combine group (lines_of self (results group)))
                    = length group).
    { rewrite length_combine. unfold lines_of.
      rewrite length_map. lia. }
    rewrite Hcomb.
    repeat split.
    + now apply Forall2_app.
    + unfold record_outputs, only in *.
      cbn [app flat_map]. rewrite call_not_output. cbn [app].
      rewrite flat_map_app.
      fold (only is_record_output
              (outputs_for self index
                 (combine (map show group)
                    (lines_of self (results group))))).
      fold (record_outputs
              (outputs_for self index
                 (combine (map show group)
                    (lines_of self (results group))))).
      rewrite record_outputs_outputs_for, Hout.
      unfold lines_of. rewrite map_app, map_app.
      rewrite combine_app_same
        by (rewrite !length_map; lia).
      rewrite outputs_for_app. do 2 f_equal.
      rewrite length_combine, !length_map. lia.
    + rewrite Hval. f_equal. rewrite length_app. lia.
Qed.

(** *** The outer loop over a source *)

Variable source : gen A.

Lemma groups_sizes :
  (1 <= _batch_size self)%Z ->
  Forall (fun group => 1 <= length group)
    (gen_items (lazy_groups_of source (_batch_size self))).
Proof.
  intros Hn. unfold lazy_groups_of.
  destruct (Z.ltb_spec (_batch_size self) 1); [lia |].
  eapply Forall_impl;
    [| apply lazy_groups_from_sizes; simpl; lia].
  simpl; intros; lia.
Qed.

Lemma groups_concat :
  (1 <= _batch_size self)%Z ->
  gen_exn source = None ->
  concat (gen_items (lazy_groups_of source (_batch_size self)))
  = gen_items source.
Proof.
  intros Hn Hexn. unfold lazy_groups_of.
  destruct (Z.ltb_spec (_batch_size self) 1); [lia |].
  now rewrite lazy_groups_from_concat.
Qed.

Lemma groups_events :
  (1 <= _batch_size self)%Z ->
  gen_events (lazy_groups_of source (_batch_size self))
  = gen_events source.
Proof.
  intros Hn. unfold lazy_groups_of.
  destruct (Z.ltb_spec (_batch_size self) 1); [lia |].
  apply lazy_groups_from_events.
Qed.

Lemma groups_exn :
  (1 <= _batch_size self)%Z ->
  gen_exn (lazy_groups_of source (_batch_size self)) = gen_exn source.
Proof.
  intros Hn. unfold lazy_groups_of.
  destruct (Z.ltb_spec (_batch_size self) 1); [lia |].
  apply lazy_groups_from_exn.
Qed.

Lemma source_event_not_output (ev : event) :
  is_source_event ev = true -> is_record_output ev = false.
Proof.
  now destruct ev as [| [| ? [| ? [| ? ?]]] | | | | | | | | | | | |].
Qed.

(** One output per record of the source, in the order of the source,
    numbered from 0. *)
Lemma for_batches_outputs (R : A -> JsonDict -> Prop) :
  (1 <= _batch_size self)%Z ->
  gen_exn source = None ->
  Forall (fun ev => is_source_event ev = true) (gen_events source) ->
  (forall batch, Forall2 R batch (results batch)) ->
  exists rs,
    Forall2 R (gen_items source) rs
    /\ record_outputs (trace (for_batches self show predict source))
       = outputs_for self 0
           (combine (map show (gen_items source)) (lines_of self rs))
    /\ value (for_batches self show predict source)
       = Ok (length (gen_items source)).
Proof.
  intros Hn Hexn Hev HR. unfold for_batches.
  destruct (for_each_as_for_list
              (fun ev => if is_record_output ev then [ev] else [])
              (for_batch self show predict)
              (lazy_groups_of source (_batch_size self))) with (s := 0)
    as [Ht Hv].
  - now rewrite groups_exn.
  - rewrite groups_events by assumption.
    eapply Forall_impl; [| exact Hev].
    intros ev Hs. now rewrite source_event_not_output.
  - destruct (batches_outputs HR (groups_sizes Hn) 0)
      as (rs & HRrs & Hout & Hval).
    rewrite groups_concat in * by assumption.
    exists rs. unfold record_outputs, only in *.
    rewrite Ht, Hv, Hout, Hval. auto.
Qed.

(** The calls of the predictor, batch after batch. *)
Lemma for_batches_calls {X} (h : event -> list X) :
  (1 <= _batch_size self)%Z ->
  gen_exn source = None ->
  Forall (fun ev => h ev = []) (gen_events source) ->
  (forall ev, is_record_output ev = true -> h ev = []) ->
  flat_map h (trace (for_batches self show predict source))
  = flat_map h
      (map call (gen_items (lazy_groups_of source (_batch_size self)))).
Proof.
  intros Hn Hexn Hev Hh. unfold for_batches.
  destruct (for_each_as_for_list h
              (for_batch self show predict)
              (lazy_groups_of source (_batch_size self))) with (s := 0)
    as [Ht _].
  - now rewrite groups_exn.
  - now rewrite groups_events.
  - rewrite Ht.
    now destruct (batches_calls h Hh (groups_sizes Hn) 0).
Qed.

(** A property of the effects of the source, of every call on a
    batch that is not empty and of every output holds of the whole
    loop, whatever the batch size and however the loop ends. *)
Lemma for_batches_Forall (P : event -> Prop) :
  Forall P (gen_events source) ->
  (forall batch, 1 <= length batch -> P (call batch)) ->
  (forall ev, is_record_output ev = true -> P ev) ->
  Forall P (trace (for_batches self show predict source)).
Proof.
  intros Hev Hcall Hout. unfold for_batches, lazy_groups_of.
  destruct (Z.ltb_spec (_batch_size self) 1); [constructor |].
  apply for_each_Forall with (Q := fun group => 1 <= length group).
  - now rewrite lazy_groups_from_events.
  - eapply Forall_impl;
      [| apply (lazy_groups_from_sizes source (n := Z.to_nat (_batch_size self)) []);
         simpl; lia].
    simpl; intros; lia.
  - intros batch index Hb.
    rewrite for_batch_eq by (intros ->; simpl in Hb; lia).
    constructor; [now apply Hcall |].
    eapply Forall_impl; [| apply outputs_for_kind]. exact Hout.
Qed.

End Mode.

End Batches.

(** ** The sources of records and the two modes *)

Section Sources.

Context {JsonDict Instance Archive : Type}.

Local Abbreviation event := (@event JsonDict Instance).
Local Abbreviation gen := (@gen JsonDict Instance).
Local Abbreviation Predictor := (@Predictor JsonDict Instance).
Local Abbreviation _PredictManager := (@_PredictManager JsonDict Instance).
Local Abbreviation Env := (@Env JsonDict Instance Archive).

Lemma yield_all_items {A} (l : list A) (k : gen A) :
  gen_items (yield_all l k) = l ++ gen_items k.
Proof. induction l; simpl; congruence. Qed.

Lemma yield_all_events {A} (l : list A) (k : gen A) :
  gen_events (yield_all l k) = gen_events k.
Proof. induction l; simpl; congruence. Qed.

Lemma yield_all_exn {A} (l : list A) (k : gen A) :
  gen_exn (yield_all l k) = gen_exn k.
Proof. induction l; simpl; congruence. Qed.

Lemma load_lines_items (p : Predictor) (ev : string -> event)
    (lines : list string) (k : gen JsonDict) :
  gen_items (load_lines p ev lines k)
  = map (load_line p) (filter (fun l => negb (PyStr.isspace l)) lines)
    ++ gen_items k.
Proof.
  induction lines as [| line rest IH]; simpl; [reflexivity |].
  destruct (PyStr.isspace line); simpl; congruence.
Qed.

Lemma load_lines_events (p : Predictor) (ev : string -> event)
    (lines : list string) (k : gen JsonDict) :
  gen_events (load_lines p ev lines k) = map ev lines ++ gen_events k.
Proof.
  induction lines as [| line rest IH]; simpl; [reflexivity |].
  destruct (PyStr.isspace line); simpl; congruence.
Qed.

Lemma load_lines_exn (p : Predictor) (ev : string -> event)
    (lines : list string) (k : gen JsonDict) :
  gen_exn (load_lines p ev lines k) = gen_exn k.
Proof.
  induction lines as [| line rest IH]; simpl; [reflexivity |].
  destruct (PyStr.isspace line); simpl; congruence.
Qed.

(** A line of a text stream is never empty, so that it is skipped
    exactly when all its characters are whitespace. *)
Lemma iter_lines_nonempty (content : string) :
  forall cur,
    Forall (fun line => line <> EmptyString) (PyStr.iter_lines content cur).
Proof.
  induction content as [| c rest IH]; intros cur; simpl.
  - destruct cur; repeat constructor; discriminate.
  - destruct (Ascii.eqb c PyStr.newline).
    + constructor; [| apply IH].
      destruct cur; discriminate.
    + apply IH.
Qed.

Lemma isspace_line (content : string) :
  Forall (fun line => PyStr.isspace line = PyStr.all_space line)
    (PyStr.lines content).
Proof.
  eapply Forall_impl; [| apply iter_lines_nonempty].
  intros [| c s] H; [congruence | reflexivity].
Qed.

Lemma filter_ext_Forall {X} (f g : X -> bool) (l : list X) :
  Forall (fun x => f x = g x) l -> filter f l = filter g l.
Proof.
  induction 1 as [| x l Hx _ IH]; simpl; [reflexivity |].
  now rewrite Hx, IH.
Qed.

Lemma except_OSError_events {A} (message : string) (e : exn) :
  Forall (fun ev : event => is_source_event ev = true)
    (gen_events (except_OSError (A := A) message e)).
Proof. destruct e; simpl; repeat constructor. Qed.

Lemma try_open_compressed_events (env : Env) (self : _PredictManager)
    (path : string) (c : option string) (message : string) :
  Forall (fun ev : event => is_source_event ev = true)
    (gen_events (try_open_compressed env self path c message)).
Proof.
  unfold try_open_compressed. simpl. constructor; [reflexivity |].
  destruct (open_compressed env path c) as [file_input | e];
    [| apply except_OSError_events].
  rewrite load_lines_events. apply Forall_app; split.
  - apply Forall_map, Forall_forall. reflexivity.
  - destruct (ts_failure file_input);
      [apply except_OSError_events | constructor].
Qed.

(** The sources only read and print the one-argument message. *)
Lemma json_source_events (env : Env) (self : _PredictManager) :
  Forall (fun ev : event => is_source_event ev = true)
    (gen_events (_get_json_data env self)).
Proof.
  unfold _get_json_data.
  destruct (_input_file self =? "-")%string.
  - rewrite load_lines_events, app_nil_r.
    apply Forall_map, Forall_forall. reflexivity.
  - simpl. constructor; [reflexivity |].
    destruct (cached_path env (_input_file self)); [| constructor].
    destruct (compression_type self); apply try_open_compressed_events.
Qed.

Lemma instance_source_events (self : _PredictManager) :
  Forall (fun ev : event => is_source_event ev = true)
    (gen_events (_get_instance_data self)).
Proof.
  unfold _get_instance_data, yield_from_read.
  destruct (_input_file self =? "-")%string; [constructor |].
  destruct (_dataset_reader self) as [reader |]; [| constructor].
  destruct (is_MultiTaskDatasetReader reader);
    [destruct (_multitask_head self); [| constructor] |];
    simpl; (constructor; [reflexivity |]);
    rewrite yield_all_events;
    match goal with |- context [rs_failure ?s] => destruct (rs_failure s) end;
    constructor.
Qed.

(** *** The two modes *)

Lemma predict_json_eq (self : _PredictManager) (batch : list JsonDict) :
  _predict_json self batch
  = GDo (call_json batch) (yield_lines self (results_json self batch)).
Proof. now destruct batch as [| x [| y rest]]. Qed.

Lemma predict_instances_eq (self : _PredictManager)
    (batch : list Instance) :
  _predict_instances self batch
  = GDo (call_instances batch)
      (yield_lines self (results_instances self batch)).
Proof. now destruct batch as [| x [| y rest]]. Qed.

Lemma call_json_is_prediction (batch : list JsonDict) :
  is_prediction (call_json (Instance := Instance) batch) = true.
Proof. now destruct batch as [| x [| y rest]]. Qed.

Lemma call_instances_is_prediction (batch : list Instance) :
  is_prediction (call_instances (JsonDict := JsonDict) batch) = true.
Proof. now destruct batch as [| x [| y rest]]. Qed.

Lemma results_json_in_order (self : _PredictManager)
    (R : JsonDict -> JsonDict -> Prop) :
  answers_in_order R (predict_json (_predictor self))
    (predict_batch_json (_predictor self)) ->
  forall batch, Forall2 R batch (results_json self batch).
Proof.
  intros [Hone Hmany] [| x [| y rest]]; simpl; auto.
Qed.

Lemma results_instances_in_order (self : _PredictManager)
    (R : Instance -> JsonDict -> Prop) :
  answers_in_order R (predict_instance (_predictor self))
    (predict_batch_instance (_predictor self)) ->
  forall batch, Forall2 R batch (results_instances self batch).
Proof.
  intros [Hone Hmany] [| x [| y rest]]; simpl; auto.
Qed.

Lemma predicted_json_calls (groups : list (list JsonDict)) :
  predicted_json (Instance := Instance) (map call_json groups)
  = concat groups.
Proof.
  induction groups as [| [| x [| y rest]] groups IH];
    unfold predicted_json in *; simpl in *; congruence.
Qed.

Lemma predicted_instances_calls (groups : list (list Instance)) :
  predicted_instances (JsonDict := JsonDict) (map call_instances groups)
  = concat groups.
Proof.
  induction groups as [| [| x [| y rest]] groups IH];
    unfold predicted_instances in *; simpl in *; congruence.
Qed.

Lemma call_json_fits (batch : list JsonDict) :
  1 <= length batch ->
  call_fits_batch (call_json (Instance := Instance) batch) = true.
Proof.
  destruct batch as [| x [| y rest]]; simpl; intros; [lia | easy | easy].
Qed.

Lemma call_instances_fits (batch : list Instance) :
  1 <= length batch ->
  call_fits_batch (call_instances (JsonDict := JsonDict) batch) = true.
Proof.
  destruct batch as [| x [| y rest]]; simpl; intros; [lia | easy | easy].
Qed.

End Sources.

(** ** [run] as a whole *)

Section Run.

Context {JsonDict Instance Archive : Type}.

Local Abbreviation event := (@event JsonDict Instance).
Local Abbreviation _PredictManager := (@_PredictManager JsonDict Instance).
Local Abbreviation Env := (@Env JsonDict Instance Archive).

Variable env : Env.
Variable self : _PredictManager.

Lemma run_eq :
  run env self = bind (run_loop env self) (fun _ => close_output self).
Proof. reflexivity. Qed.

Lemma run_value :
  value (run env self)
  = match value (run_loop env self) with
    | Ok _ => Ok tt
    | Err e => Err e
    end.
Proof.
  rewrite run_eq, value_bind.
  destruct (value (run_loop env self)); [| reflexivity].
  unfold close_output. now destruct (_output_file self).
Qed.

Lemma run_trace :
  trace (run env self)
  = trace (run_loop env self)
    ++ match value (run_loop env self) with
       | Ok _ => trace (close_output self)
       | Err _ => []
       end.
Proof. now rewrite run_eq, trace_bind. Qed.

(** A projection that is blind to the closing of the output file sees
    [run] as its loops. *)
Lemma run_blind_to_close {X} (h : event -> list X) :
  (forall f, h (EvCloseOutput f) = []) ->
  flat_map h (trace (run env self)) = flat_map h (trace (run_loop env self)).
Proof.
  intros Hh. rewrite run_trace, flat_map_app.
  destruct (value (run_loop env self)); simpl; [| now rewrite app_nil_r].
  unfold close_output. destruct (_output_file self); simpl.
  - now rewrite Hh, app_nil_r.
  - now rewrite app_nil_r.
Qed.

Lemma written_of_outputs (t : list event) :
  written (record_outputs t) = written t.
Proof.
  unfold written, record_outputs, only.
  induction t as [| ev t IH]; simpl; [reflexivity |].
  rewrite flat_map_app, IH.
  now destruct ev as [| [| ? [| ? [| ? ?]]] | | | | | | | | | | | |].
Qed.

Lemma printed_of_outputs (t : list event) :
  printed_predictions (record_outputs t) = printed_predictions t.
Proof.
  unfold printed_predictions, record_outputs, only.
  induction t as [| ev t IH]; simpl; [reflexivity |].
  rewrite flat_map_app, IH.
  destruct ev as [| [| ? [| ? [| ? ?]]] | | | | | | | | | | | |];
    try reflexivity.
  simpl. now rewrite app_nil_r.
Qed.

(** The lines written to the output file, and the predictions printed,
    are the lines of the results, one after the other. *)
Lemma written_outputs_for (f : string) (lines : list string) :
  _output_file self = Some f ->
  forall (shown : list string) (index : nat),
    length shown = length lines ->
    written (outputs_for self index (combine shown lines)) = lines.
Proof.
  intros Hf. unfold written.
  induction lines as [| line lines IH]; intros [| m shown] index Hlen;
    simpl in *; try discriminate; [reflexivity |].
  rewrite flat_map_app, maybe_print_trace, Hf, flat_map_app, IH
    by now injection Hlen.
  now destruct (_print_to_console self).
Qed.

Lemma printed_outputs_for (lines : list string) :
  _print_to_console self = true ->
  forall (shown : list string) (index : nat),
    length shown = length lines ->
    printed_predictions (outputs_for self index (combine shown lines))
    = lines.
Proof.
  intros Hp. unfold printed_predictions.
  induction lines as [| line lines IH]; intros [| m shown] index Hlen;
    simpl in *; try discriminate; [reflexivity |].
  rewrite flat_map_app, maybe_print_trace, Hp, flat_map_app, IH
    by now injection Hlen.
  now destruct (_output_file self).
Qed.

End Run.

(** ** One prediction per record, in order *)

Section Order.

Context {JsonDict Instance Archive : Type}.

Local Abbreviation event := (@event JsonDict Instance).
Local Abbreviation _PredictManager := (@_PredictManager JsonDict Instance).
Local Abbreviation Env := (@Env JsonDict Instance Archive).

Variable env : Env.
Variable self : _PredictManager.

Lemma record_outputs_run :
  record_outputs (trace (run env self))
  = record_outputs (trace (run_loop env self)).
Proof. now apply run_blind_to_close. Qed.

(** From the outputs of the loops to the outputs of [run]. *)
Lemma one_output_per_record_intro {A} (R : A -> JsonDict -> Prop)
    (show : A -> string) (records : list A) (rs : list JsonDict) :
  Forall2 R records rs ->
  record_outputs (trace (run_loop env self))
  = outputs_for self 0 (combine (map show records) (lines_of self rs)) ->
  one_output_per_record self (trace (run env self)) R show records.
Proof.
  intros HR Hout. exists rs.
  assert (Hlen : length (map show records) = length (lines_of self rs)).
  { unfold lines_of. rewrite !length_map.
    eapply Forall2_length; eassumption. }
  rewrite <- record_outputs_run in Hout.
  repeat split; try assumption.
  - intros Hf. destruct (_output_file self) as [f |] eqn:Ef; [| congruence].
    rewrite <- written_of_outputs, Hout.
    now apply written_outputs_for with (f := f).
  - intros Hp. rewrite <- printed_of_outputs, Hout.
    now apply printed_outputs_for.
Qed.

Lemma run_loop_reader (reader : DatasetReader) :
  _dataset_reader self = Some reader ->
  run_loop env self
  = for_batches self (str env) (_predict_instances self)
      (_get_instance_data self).
Proof. unfold run_loop. now intros ->. Qed.

Lemma run_loop_json :
  _dataset_reader self = None ->
  run_loop env self
  = for_batches self (json_dumps env) (_predict_json self)
      (_get_json_data env self).
Proof. unfold run_loop. now intros ->. Qed.

Lemma source_event_not_predicted_json (ev : event) :
  is_source_event ev = true ->
  match ev with
  | EvPredictJson x => [x]
  | EvPredictBatchJson xs => xs
  | _ => []
  end = [].
Proof. now destruct ev as [| [| ? [| ? ?]] | | | | | | | | | | | |]. Qed.

Lemma source_event_not_predicted_instances (ev : event) :
  is_source_event ev = true ->
  match ev with
  | EvPredictInstance x => [x]
  | EvPredictBatchInstance xs => xs
  | _ => []
  end = [].
Proof. now destruct ev as [| [| ? [| ? ?]] | | | | | | | | | | | |]. Qed.

(** Every record of the source is handed to the predictor once, in
    order. *)
Lemma run_predicted_json :
  (1 <= _batch_size self)%Z ->
  _dataset_reader self = None ->
  gen_exn (_get_json_data env self) = None ->
  predicted_json (trace (run env self))
  = gen_items (_get_json_data env self).
Proof.
  intros Hn Hmode Hsrc. unfold predicted_json.
  rewrite run_blind_to_close, run_loop_json by easy.
  rewrite (for_batches_calls self (json_dumps env) _ _ _
             (predict_json_eq self)); try assumption.
  - fold (predicted_json (Instance := Instance)
            (map call_json
               (gen_items
                  (lazy_groups_of (_get_json_data env self)
                     (_batch_size self))))).
    rewrite predicted_json_calls. now apply groups_concat.
  - eapply Forall_impl; [| apply json_source_events].
    apply source_event_not_predicted_json.
  - now intros [| [| ? [| ? [| ? ?]]] | | | | | | | | | | | |].
Qed.

Lemma run_predicted_instances (reader : DatasetReader) :
  (1 <= _batch_size self)%Z ->
  _dataset_reader self = Some reader ->
  gen_exn (_get_instance_data self) = None ->
  predicted_instances (trace (run env self))
  = gen_items (_get_instance_data self).
Proof.
  intros Hn Hmode Hsrc. unfold predicted_instances.
  rewrite run_blind_to_close, (run_loop_reader Hmode) by easy.
  rewrite (for_batches_calls self (str env) _ _ _
             (predict_instances_eq self)); try assumption.
  - fold (predicted_instances (JsonDict := JsonDict)
            (map call_instances
               (gen_items
                  (lazy_groups_of (_get_instance_data self)
                     (_batch_size self))))).
    rewrite predicted_instances_calls. now apply groups_concat.
  - eapply Forall_impl; [| apply instance_source_events].
    apply source_event_not_predicted_instances.
  - now intros [| [| ? [| ? [| ? ?]]] | | | | | | | | | | | |].
Qed.

(** [run] returns, and its outputs are one per record, in order. *)
Lemma run_outputs_json (R : JsonDict -> JsonDict -> Prop) :
  (1 <= _batch_size self)%Z ->
  _dataset_reader self = None ->
  gen_exn (_get_json_data env self) = None ->
  answers_in_order R (predict_json (_predictor self))
    (predict_batch_json (_predictor self)) ->
  value (run env self) = Ok tt
  /\ one_output_per_record self (trace (run env self)) R (json_dumps env)
       (gen_items (_get_json_data env self)).
Proof.
  intros Hn Hmode Hsrc HR.
  destruct (for_batches_outputs self (json_dumps env) _ _ _
              (predict_json_eq self)
              (@call_json_is_prediction _ _)
              (_get_json_data env self)
              Hn Hsrc (json_source_events env self)
              (results_json_in_order self HR))
    as (rs & HRrs & Hout & Hval).
  rewrite run_value, run_loop_json, Hval by assumption.
  split; [reflexivity |].
  apply one_output_per_record_intro with (rs := rs); [assumption |].
  now rewrite run_loop_json.
Qed.

Lemma run_outputs_instances (R : Instance -> JsonDict -> Prop)
    (reader : DatasetReader) :
  (1 <= _batch_size self)%Z ->
  _dataset_reader self = Some reader ->
  gen_exn (_get_instance_data self) = None ->
  answers_in_order R (predict_instance (_predictor self))
    (predict_batch_instance (_predictor self)) ->
  value (run env self) = Ok tt
  /\ one_output_per_record self (trace (run env self)) R (str env)
       (gen_items (_get_instance_data self)).
Proof.
  intros Hn Hmode Hsrc HR.
  destruct (for_batches_outputs self (str env) _ _ _
              (predict_instances_eq self)
              (@call_instances_is_prediction _ _)
              (_get_instance_data self)
              Hn Hsrc (instance_source_events self)
              (results_instances_in_order self HR))
    as (rs & HRrs & Hout & Hval).
  rewrite run_value, (run_loop_reader Hmode), Hval.
  split; [reflexivity |].
  apply one_output_per_record_intro with (rs := rs); [assumption |].
  now rewrite (run_loop_reader Hmode).
Qed.

(** C1. For every source of records that is read to its end and every
    batch size of 1 or more, if the predictor answers record by record
    (the result at each place of a batch is the one of the record at
    that place), [run] returns and hands every record to the predictor
    once, in order; it emits one prediction per record, in the order of
    the records, within and across batches, numbered from 0: that is
    what it prints when printing is on and what it writes when there is
    an output file.  The statement is made for the two modes. *)
Theorem run_emits_one_prediction_per_record
    (Rj : JsonDict -> JsonDict -> Prop) (Ri : Instance -> JsonDict -> Prop) :
  (1 <= _batch_size self)%Z ->
  answers_in_order Rj (predict_json (_predictor self))
    (predict_batch_json (_predictor self)) ->
  answers_in_order Ri (predict_instance (_predictor self))
    (predict_batch_instance (_predictor self)) ->
  source_completes env self ->
  value (run env self) = Ok tt
  /\ match _dataset_reader self with
     | Some _ =>
         predicted_instances (trace (run env self))
         = gen_items (_get_instance_data self)
         /\ one_output_per_record self (trace (run env self)) Ri (str env)
              (gen_items (_get_instance_data self))
     | None =>
         predicted_json (trace (run env self))
         = gen_items (_get_json_data env self)
         /\ one_output_per_record self (trace (run env self)) Rj
              (json_dumps env) (gen_items (_get_json_data env self))
     end.
Proof.
  intros Hn Hj Hi Hsrc. unfold source_completes in Hsrc.
  destruct (_dataset_reader self) as [reader |] eqn:Hmode.
  - destruct (run_outputs_instances Hn Hmode Hsrc Hi) as [Hval Hout].
    repeat split; try assumption.
    now apply run_predicted_instances with (reader := reader).
  - destruct (run_outputs_json Hn Hmode Hsrc Hj) as [Hval Hout].
    repeat split; try assumption.
    now apply run_predicted_json.
Qed.

End Order.

(** ** Batching does not alter the results *)

Section BatchSize.

Context {JsonDict Instance Archive : Type}.

Local Abbreviation event := (@event JsonDict Instance).
Local Abbreviation _PredictManager := (@_PredictManager JsonDict Instance).
Local Abbreviation Env := (@Env JsonDict Instance Archive).

Variable env : Env.
Variable self : _PredictManager.

Lemma outputs_for_with_batch_size (k : Z) pairs :
  forall index,
    outputs_for (with_batch_size self k) index pairs
    = outputs_for self index pairs.
Proof.
  induction pairs as [| [m line] rest IH]; intros index; simpl.
  - reflexivity.
  - now rewrite IH.
Qed.

Lemma Forall2_eq_map {X Y} (f : X -> Y) (l : list X) (rs : list Y) :
  Forall2 (fun x r => r = f x) l rs -> rs = map f l.
Proof. induction 1; simpl; congruence. Qed.

Lemma elementwise_in_order {X} (single : X -> JsonDict)
    (batch : list X -> list JsonDict) :
  (forall xs, batch xs = map single xs) ->
  answers_in_order (fun x r => r = single x) single batch.
Proof.
  intros Hb. split; [reflexivity |].
  intros xs. rewrite Hb. induction xs; simpl; constructor; auto.
Qed.

(** With a batch operation that maps the single one, the outputs of a
    run are those of the single operation on every record, whatever the
    batch size. *)
Lemma run_outputs_elementwise (k : Z) :
  (1 <= k)%Z ->
  (forall xs, predict_batch_json (_predictor self) xs
              = map (predict_json (_predictor self)) xs) ->
  (forall xs, predict_batch_instance (_predictor self) xs
              = map (predict_instance (_predictor self)) xs) ->
  source_completes env self ->
  value (run env (with_batch_size self k)) = Ok tt
  /\ record_outputs (trace (run env (with_batch_size self k)))
     = match _dataset_reader self with
       | Some _ =>
           outputs_for self 0
             (combine
                (map (str env) (gen_items (_get_instance_data self)))
                (lines_of self
                   (map (predict_instance (_predictor self))
                      (gen_items (_get_instance_data self)))))
       | None =>
           outputs_for self 0
             (combine
                (map (json_dumps env) (gen_items (_get_json_data env self)))
                (lines_of self
                   (map (predict_json (_predictor self))
                      (gen_items (_get_json_data env self)))))
       end.
Proof.
  intros Hk Hj Hi Hsrc. unfold source_completes in Hsrc.
  destruct (_dataset_reader self) as [reader |] eqn:Hmode.
  - destruct (run_outputs_instances env (with_batch_size self k)
                (R := fun x r => r = predict_instance (_predictor self) x)
                (reader := reader))
      as (Hval & rs & HR & Hout & _); try assumption.
    + now apply elementwise_in_order.
    + split; [assumption |].
      rewrite Hout, outputs_for_with_batch_size.
      now rewrite (Forall2_eq_map _ HR).
  - destruct (run_outputs_json env (with_batch_size self k)
                (R := fun x r => r = predict_json (_predictor self) x))
      as (Hval & rs & HR & Hout & _); try assumption.
    + now apply elementwise_in_order.
    + split; [assumption |].
      rewrite Hout, outputs_for_with_batch_size.
      now rewrite (Forall2_eq_map _ HR).
Qed.

(** C3. For every source of records that is read to its end and every
    batch size [K > 1], if the batch operation of the predictor is the
    single operation applied to every record, the run with batch size 1
    and the run with batch size [K] both return and print and write the
    same: the same numbered inputs and predictions on the console, the
    same lines in the output file. *)
Theorem batch_size_1_and_K_same_outputs (K : Z) :
  (1 < K)%Z ->
  (forall xs, predict_batch_json (_predictor self) xs
              = map (predict_json (_predictor self)) xs) ->
  (forall xs, predict_batch_instance (_predictor self) xs
              = map (predict_instance (_predictor self)) xs) ->
  source_completes env self ->
  value (run env (with_batch_size self 1)) = Ok tt
  /\ value (run env (with_batch_size self K)) = Ok tt
  /\ record_outputs (trace (run env (with_batch_size self 1)))
     = record_outputs (trace (run env (with_batch_size self K)))
  /\ written (trace (run env (with_batch_size self 1)))
     = written (trace (run env (with_batch_size self K)))
  /\ printed_predictions (trace (run env (with_batch_size self 1)))
     = printed_predictions (trace (run env (with_batch_size self K))).
Proof.
  intros HK Hj Hi Hsrc.
  destruct (@run_outputs_elementwise 1) as [Hv1 Ho1];
    try assumption; [lia |].
  destruct (@run_outputs_elementwise K) as [HvK HoK];
    try assumption; [lia |].
  assert (Hsame : record_outputs (trace (run env (with_batch_size self 1)))
                  = record_outputs (trace (run env (with_batch_size self K))))
    by now rewrite Ho1, HoK.
  repeat split; try assumption.
  - rewrite <- (written_of_outputs (trace (run env (with_batch_size self 1)))).
    rewrite Hsame. apply written_of_outputs.
  - rewrite <- (printed_of_outputs
                  (trace (run env (with_batch_size self 1)))).
    rewrite Hsame. apply printed_of_outputs.
Qed.

End BatchSize.

(** ** Which operation of the predictor is called *)

Section DispatchLoops.

Context {JsonDict Instance : Type}.

Local Abbreviation event := (@event JsonDict Instance).
Local Abbreviation M := (@M JsonDict Instance).
Local Abbreviation gen := (@gen JsonDict Instance).
Local Abbreviation _PredictManager := (@_PredictManager JsonDict Instance).

(** A projection that is blind to the effects of the generator sees in
    a loop over it the loop over the values it yields, however the
    generator and the loop end. *)
Lemma for_each_trace_as_for_list {A S X} (h : event -> list X)
    (body : A -> S -> M S) (g : gen A) :
  Forall (fun ev => h ev = []) (gen_events g) ->
  forall s,
    flat_map h (trace (for_each g body s))
    = flat_map h (trace (for_list (gen_items g) body s)).
Proof.
  induction g as [| e | ev k IH | a k IH];
    cbn [for_each for_list gen_events gen_items]; intros Hev s.
  - reflexivity.
  - reflexivity.
  - inversion Hev as [| ? ? Hh Hk]; subst.
    rewrite trace_bind. cbn. rewrite Hh. cbn. now apply IH.
  - rewrite !trace_bind, !flat_map_app.
    destruct (value (body a s)) as [s' | e]; [| reflexivity].
    now rewrite IH.
Qed.

Variable self : _PredictManager.
Variable A : Type.
Variable show : A -> string.
Variable predict : list A -> gen string.
Variable call : list A -> event.
Variable results : list A -> list JsonDict.

Hypothesis predict_eq :
  forall batch,
    predict batch = GDo (call batch) (yield_lines self (results batch)).

Hypothesis call_is_prediction :
  forall batch, is_prediction (call batch) = true.

Variable source : gen A.

(** The groups of a source are never empty, whatever the batch size. *)
Lemma groups_never_empty :
  Forall (fun group => 1 <= length group)
    (gen_items (lazy_groups_of source (_batch_size self))).
Proof.
  unfold lazy_groups_of.
  destruct (Z.ltb_spec (_batch_size self) 1); [constructor |].
  eapply Forall_impl;
    [| apply (lazy_groups_from_sizes source (n := Z.to_nat (_batch_size self)) []);
       simpl; lia].
  simpl. intros group Hg. lia.
Qed.

Lemma groups_events_of_source (P : event -> Prop) :
  Forall P (gen_events source) ->
  Forall P (gen_events (lazy_groups_of source (_batch_size self))).
Proof.
  intros H. unfold lazy_groups_of.
  destruct (Z.ltb_spec (_batch_size self) 1); [constructor |].
  now rewrite lazy_groups_from_events.
Qed.

Lemma only_calls (groups : list (list A)) :
  only is_prediction (map call groups) = map call groups.
Proof.
  unfold only. induction groups as [| group groups IH]; cbn; [reflexivity |].
  now rewrite call_is_prediction, IH.
Qed.

(** The calls of the predictor in the outer loop are those of the
    groups of the source, one call per group, in order, whatever the
    batch size and however the source ends. *)
Lemma for_batches_predictions :
  Forall (fun ev => is_prediction ev = false) (gen_events source) ->
  only is_prediction (trace (for_batches self show predict source))
  = map call (gen_items (lazy_groups_of source (_batch_size self))).
Proof.
  intros Hev. rewrite <- only_calls. unfold only, for_batches.
  rewrite for_each_trace_as_for_list.
  - apply (batches_calls self show predict call results predict_eq
             (fun ev : event => if is_prediction ev then [ev] else [])).
    + now intros [| [| ? [| ? [| ? ?]]] | | | | | | | | | | | |].
    + apply groups_never_empty.
  - apply groups_events_of_source.
    eapply Forall_impl; [| exact Hev]. now intros ev ->.
Qed.

End DispatchLoops.

Section Dispatch.

Context {JsonDict Instance Archive : Type}.

Local Abbreviation event := (@event JsonDict Instance).
Local Abbreviation _PredictManager := (@_PredictManager JsonDict Instance).
Local Abbreviation Env := (@Env JsonDict Instance Archive).

Lemma source_event_fits (ev : event) :
  is_source_event ev = true -> call_fits_batch ev = true.
Proof. now destruct ev as [| [| ? [| ? ?]] | | | | | | | | | | | |]. Qed.

Lemma output_fits (ev : event) :
  is_record_output ev = true -> call_fits_batch ev = true.
Proof. now destruct ev. Qed.

Lemma run_loop_fits (env : Env) (self : _PredictManager) :
  Forall (fun ev => call_fits_batch ev = true) (trace (run_loop env self)).
Proof.
  unfold run_loop.
  destruct (negb (is_None (_dataset_reader self))).
  - apply (for_batches_Forall self (str env) _ _ _
             (predict_instances_eq self)).
    + eapply Forall_impl; [| apply instance_source_events].
      apply source_event_fits.
    + apply call_instances_fits.
    + apply output_fits.
  - apply (for_batches_Forall self (json_dumps env) _ _ _
             (predict_json_eq self)).
    + eapply Forall_impl; [| apply json_source_events].
      apply source_event_fits.
    + apply call_json_fits.
    + apply output_fits.
Qed.

Lemma source_event_no_prediction (ev : event) :
  is_source_event ev = true -> is_prediction ev = false.
Proof. now destruct ev as [| [| ? [| ? ?]] | | | | | | | | | | | |]. Qed.

(** The calls of the predictor in a run are those of the batches it
    forms, one call per batch, in order. *)
Lemma run_predictions (env : Env) (self : _PredictManager) :
  only is_prediction (trace (run env self))
  = match _dataset_reader self with
    | Some _ =>
        map call_instances
          (gen_items
             (lazy_groups_of (_get_instance_data self) (_batch_size self)))
    | None =>
        map call_json
          (gen_items
             (lazy_groups_of (_get_json_data env self) (_batch_size self)))
    end.
Proof.
  unfold only. rewrite run_blind_to_close by reflexivity.
  unfold run_loop.
  destruct (_dataset_reader self) as [reader |]; cbn [is_None negb].
  - apply (for_batches_predictions self (str env) _ _ _
             (predict_instances_eq self)
             (@call_instances_is_prediction _ _)).
    eapply Forall_impl; [| apply instance_source_events].
    apply source_event_no_prediction.
  - apply (for_batches_predictions self (json_dumps env) _ _ _
             (predict_json_eq self)
             (@call_json_is_prediction _ _)).
    eapply Forall_impl; [| apply json_source_events].
    apply source_event_no_prediction.
Qed.

Lemma call_json_follows (groups : list (list JsonDict)) :
  Forall2 (json_call_follows_length (Instance := Instance)) groups
    (map call_json groups).
Proof.
  induction groups as [| group groups IH]; cbn; constructor; trivial.
  split.
  - now intros x ->.
  - destruct group as [| x [| y rest]]; cbn; intros Hlen; try lia.
    reflexivity.
Qed.

Lemma call_instances_follows (groups : list (list Instance)) :
  Forall2 (instance_call_follows_length (JsonDict := JsonDict)) groups
    (map call_instances groups).
Proof.
  induction groups as [| group groups IH]; cbn; constructor; trivial.
  split.
  - now intros x ->.
  - destruct group as [| x [| y rest]]; cbn; intros Hlen; try lia.
    reflexivity.
Qed.

(** C5. In both input modes, a batch of exactly one record is
    predicted by the single-record operation ([predict_json],
    [predict_instance]) and a batch of more than one record by the batch
    operation ([predict_batch_json], [predict_batch_instance]).  In a
    run, whatever its batch size and however it ends, the batch
    operations are only ever called on two records or more; and the
    calls of the predictor that the run makes are, in order, one per
    batch that it forms from its source (the groups of
    [lazy_groups_of], none of them empty), each call being the
    single-record operation on the record of the batch when the batch has
    exactly one record and the batch operation on the batch when it has
    more. *)
Theorem predictor_operation_follows_batch_length
    (env : Env) (self : _PredictManager) :
  (forall x,
      _predict_json self [x]
      = GDo (EvPredictJson x)
          (yield_lines self [predict_json (_predictor self) x]))
  /\ (forall x,
         _predict_instances self [x]
         = GDo (EvPredictInstance x)
             (yield_lines self [predict_instance (_predictor self) x]))
  /\ (forall batch,
         1 < length batch ->
         _predict_json self batch
         = GDo (EvPredictBatchJson batch)
             (yield_lines self
                (predict_batch_json (_predictor self) batch)))
  /\ (forall batch,
         1 < length batch ->
         _predict_instances self batch
         = GDo (EvPredictBatchInstance batch)
             (yield_lines self
                (predict_batch_instance (_predictor self) batch)))
  /\ Forall (fun ev => call_fits_batch ev = true) (trace (run env self))
  /\ match _dataset_reader self with
     | Some _ =>
         Forall (fun batch => 1 <= length batch)
           (gen_items
              (lazy_groups_of (_get_instance_data self) (_batch_size self)))
         /\ Forall2 instance_call_follows_length
              (gen_items
                 (lazy_groups_of (_get_instance_data self)
                    (_batch_size self)))
              (only is_prediction (trace (run env self)))
     | None =>
         Forall (fun batch => 1 <= length batch)
           (gen_items
              (lazy_groups_of (_get_json_data env self) (_batch_size self)))
         /\ Forall2 json_call_follows_length
              (gen_items
                 (lazy_groups_of (_get_json_data env self)
                    (_batch_size self)))
              (only is_prediction (trace (run env self)))
     end.
Proof.
  split; [reflexivity |]. split; [reflexivity |].
  split; [| split; [| split]].
  - intros [| x [| y rest]] Hlen; simpl in Hlen; try lia. reflexivity.
  - intros [| x [| y rest]] Hlen; simpl in Hlen; try lia. reflexivity.
  - rewrite run_trace. apply Forall_app; split; [apply run_loop_fits |].
    destruct (value (run_loop env self)); [| constructor].
    unfold close_output. destruct (_output_file self); repeat constructor.
  - rewrite run_predictions.
    destruct (_dataset_reader self) as [reader |]; split.
    + apply groups_never_empty.
    + apply call_instances_follows.
    + apply groups_never_empty.
    + apply call_json_follows.
Qed.

End Dispatch.

(** ** Errors while reading *)

Section ReadingErrors.

Context {JsonDict Instance Archive : Type}.

Local Abbreviation event := (@event JsonDict Instance).
Local Abbreviation _PredictManager := (@_PredictManager JsonDict Instance).
Local Abbreviation Env := (@Env JsonDict Instance Archive).

Variable env : Env.
Variable self : _PredictManager.

Lemma lazy_groups_of_raise {A} (e : exn) (n : Z) :
  (1 <= n)%Z ->
  lazy_groups_of (GRaise (JsonDict := JsonDict) (Instance := Instance)
                    (A := A) e) n
  = GRaise e.
Proof.
  intros Hn. unfold lazy_groups_of.
  now destruct (Z.ltb_spec n 1); [lia |].
Qed.

(** C6 (amended). For every run in reader mode (a dataset reader is
    attached) whose input file is "-" and whose batch size is 1 or more, [run]
    raises the configuration error about standard input and does
    nothing else: no line is read from standard input or from anywhere,
    no prediction is made, nothing is printed or written. *)
Theorem reader_mode_refuses_stdin (reader : DatasetReader) :
  _dataset_reader self = Some reader ->
  _input_file self = "-" ->
  (1 <= _batch_size self)%Z ->
  run env self
  = ([], Err (ConfigurationError
                "stdin is not an option when using a DatasetReader."))
  /\ only is_input_read (trace (run env self)) = []
  /\ only is_prediction (trace (run env self)) = [].
Proof.
  intros Hreader Hinput Hn.
  assert (Hrun : run env self
                 = ([], Err (ConfigurationError
                               "stdin is not an option when using a DatasetReader."))).
  { rewrite run_eq. unfold run_loop, for_batches, _get_instance_data.
    rewrite Hreader, Hinput. simpl.
    now rewrite lazy_groups_of_raise. }
  now rewrite Hrun.
Qed.

(** C8. For every run in raw-JSON mode with no compression type, a
    batch size of 1 or more and an input file other than "-" that
    [cached_path] resolves, if [open_compressed] raises an [OSError],
    then [run] prints the message that asks for the compression type,
    reads no line and makes no prediction, closes the output file if
    there is one, and returns. *)
Theorem detection_failure_is_reported (path message : string) :
  _dataset_reader self = None ->
  _input_file self <> "-" ->
  compression_type self = None ->
  (1 <= _batch_size self)%Z ->
  cached_path env (_input_file self) = Ok path ->
  open_compressed env path None = Err (OSError message) ->
  run env self
  = ([EvCachedPath (_input_file self);
      EvOpenCompressed path None;
      EvPrint ["Automatic detection failed, please specify the compression type argument."]]
     ++ trace (close_output self),
     Ok tt)
  /\ gen_items (_get_json_data env self) = []
  /\ only is_prediction (trace (run env self)) = []
  /\ only is_record_output (trace (run env self)) = [].
Proof.
  intros Hmode Hinput Hc Hn Hpath Hopen.
  assert (Hsrc : _get_json_data env self
                 = GDo (EvCachedPath (_input_file self))
                     (GDo (EvOpenCompressed path None)
                        (GDo (EvPrint ["Automatic detection failed, please specify the compression type argument."])
                           GDone))).
  { unfold _get_json_data, try_open_compressed.
    apply String.eqb_neq in Hinput. rewrite Hinput, Hpath, Hc, Hopen.
    reflexivity. }
  assert (Hrun : run env self
                 = ([EvCachedPath (_input_file self);
                     EvOpenCompressed path None;
                     EvPrint ["Automatic detection failed, please specify the compression type argument."]]
                    ++ trace (close_output self),
                    Ok tt)).
  { rewrite run_eq. unfold run_loop, for_batches.
    rewrite Hmode, Hsrc. unfold lazy_groups_of.
    destruct (Z.ltb_spec (_batch_size self) 1); [lia |].
    unfold close_output. now destruct (_output_file self). }
  rewrite Hrun, Hsrc. repeat split.
  - unfold close_output. now destruct (_output_file self).
  - unfold close_output. now destruct (_output_file self).
Qed.

End ReadingErrors.

(** ** The output file *)

Section OutputFile.

Context {JsonDict Instance Archive : Type}.

Local Abbreviation event := (@event JsonDict Instance).
Local Abbreviation Predictor := (@Predictor JsonDict Instance).
Local Abbreviation _PredictManager := (@_PredictManager JsonDict Instance).
Local Abbreviation Env := (@Env JsonDict Instance Archive).

Lemma run_loop_no_open_no_close (env : Env) (self : _PredictManager) :
  Forall no_open_no_close (trace (run_loop env self)).
Proof.
  assert (Hsrc : forall ev : event,
             is_source_event ev = true -> no_open_no_close ev)
    by (now intros [| [| ? [| ? ?]] | | | | | | | | | | | |]).
  assert (Hout : forall ev : event,
             is_record_output ev = true -> no_open_no_close ev)
    by (now intros []).
  unfold run_loop.
  destruct (negb (is_None (_dataset_reader self))).
  - apply (for_batches_Forall self (str env) _ _ _
             (predict_instances_eq self)); try assumption.
    + eapply Forall_impl; [| apply instance_source_events]. exact Hsrc.
    + now intros [| x [| y rest]].
  - apply (for_batches_Forall self (json_dumps env) _ _ _
             (predict_json_eq self)); try assumption.
    + eapply Forall_impl; [| apply json_source_events]. exact Hsrc.
    + now intros [| x [| y rest]].
Qed.

Lemma only_none (keep : event -> bool) (t : list event) :
  Forall (fun ev => keep ev = false) t -> only keep t = [].
Proof.
  intros H. apply flat_map_nil_Forall.
  eapply Forall_impl; [| exact H]. now intros ev ->.
Qed.

Lemma only_app (keep : event -> bool) (t1 t2 : list event) :
  only keep (t1 ++ t2) = only keep t1 ++ only keep t2.
Proof. apply flat_map_app. Qed.

(** The constructor opens the output file, and nothing else, when a
    path is given; the manager it returns holds that file. *)
Lemma init_trace (env : Env) (predictor : Predictor) (input_file : string)
    (output_file : option string) (batch_size : Z)
    (print_to_console has_dataset_reader : bool)
    (compression multitask_head : option string) :
  trace (__init__ env predictor input_file output_file batch_size
           print_to_console has_dataset_reader compression multitask_head)
  = match output_file with
    | Some path => [EvOpenOutput path]
    | None => []
    end.
Proof.
  unfold __init__.
  destruct output_file as [path |]; cbn.
  - destruct (open_for_writing env path) as [[] | e]; cbn; [| reflexivity].
    destruct multitask_head, has_dataset_reader; cbn;
      try reflexivity;
      destruct (Predictor_dataset_reader predictor) as [r |]; cbn;
      try reflexivity;
      destruct (is_MultiTaskDatasetReader r); reflexivity.
  - destruct multitask_head, has_dataset_reader; cbn;
      try reflexivity;
      destruct (Predictor_dataset_reader predictor) as [r |]; cbn;
      try reflexivity;
      destruct (is_MultiTaskDatasetReader r); reflexivity.
Qed.

Lemma init_output_file (env : Env) (predictor : Predictor)
    (input_file : string) (output_file : option string) (batch_size : Z)
    (print_to_console has_dataset_reader : bool)
    (compression multitask_head : option string) (self : _PredictManager) :
  value (__init__ env predictor input_file output_file batch_size
           print_to_console has_dataset_reader compression multitask_head)
  = Ok self ->
  _output_file self = output_file.
Proof.
  unfold __init__.
  destruct output_file as [path |]; cbn.
  - destruct (open_for_writing env path) as [[] | e]; cbn; [| discriminate].
    destruct multitask_head, has_dataset_reader; cbn;
      try discriminate; try (intros [= <-]; reflexivity);
      destruct (Predictor_dataset_reader predictor) as [r |]; cbn;
      try discriminate; try (intros [= <-]; reflexivity);
      destruct (is_MultiTaskDatasetReader r); cbn;
      try discriminate; intros [= <-]; reflexivity.
  - destruct multitask_head, has_dataset_reader; cbn;
      try discriminate; try (intros [= <-]; reflexivity);
      destruct (Predictor_dataset_reader predictor) as [r |]; cbn;
      try discriminate; try (intros [= <-]; reflexivity);
      destruct (is_MultiTaskDatasetReader r); cbn;
      try discriminate; intros [= <-]; reflexivity.
Qed.

(** C9. For every [run] that returns with a manager that holds an
    output file, the file is closed exactly once, the closing is the
    last thing [run] does, and [run] opens no file; with a manager that
    holds no file, [run] opens and closes nothing, however it ends.
    This does not depend on the number of records.  The file is the one
    the constructor opened: a constructor given an output path opens it,
    once, and one given no path opens nothing; neither closes anything,
    and the manager returned holds the file of the path given, or
    none. *)
Theorem output_file_closed_exactly_once
    (env : Env) (self : _PredictManager) :
  (forall f,
      _output_file self = Some f ->
      value (run env self) = Ok tt ->
      only is_close_output (trace (run env self)) = [EvCloseOutput f]
      /\ (exists t, trace (run env self) = t ++ [EvCloseOutput f])
      /\ only is_open_output (trace (run env self)) = [])
  /\ (_output_file self = None ->
      only is_close_output (trace (run env self)) = []
      /\ only is_open_output (trace (run env self)) = [])
  /\ forall predictor input_file output_file batch_size print_to_console
            has_dataset_reader compression multitask_head,
      only is_open_output
        (trace (__init__ env predictor input_file output_file batch_size
                  print_to_console has_dataset_reader compression
                  multitask_head))
      = match output_file with
        | Some path => [EvOpenOutput path]
        | None => []
        end
      /\ only is_close_output
           (trace (__init__ env predictor input_file output_file batch_size
                     print_to_console has_dataset_reader compression
                     multitask_head))
         = []
      /\ forall manager,
          value (__init__ env predictor input_file output_file batch_size
                   print_to_console has_dataset_reader compression
                   multitask_head)
          = Ok manager ->
          _output_file manager = output_file.
Proof.
  pose proof (run_loop_no_open_no_close env self) as Hloop.
  assert (Hopen : only is_open_output (trace (run_loop env self)) = []).
  { apply only_none. eapply Forall_impl; [| exact Hloop]. now intros ev []. }
  assert (Hclose : only is_close_output (trace (run_loop env self)) = []).
  { apply only_none. eapply Forall_impl; [| exact Hloop]. now intros ev []. }
  split; [| split].
  - intros f Hf Hval.
    rewrite run_value in Hval. rewrite run_trace.
    destruct (value (run_loop env self)) as [n | e]; [| discriminate].
    rewrite !only_app, Hopen, Hclose. unfold close_output.
    rewrite Hf; cbn.
    repeat split. now exists (trace (run_loop env self)).
  - intros Hf. rewrite run_trace, !only_app, Hopen, Hclose.
    unfold close_output. rewrite Hf.
    now destruct (value (run_loop env self)).
  - intros. rewrite init_trace. repeat split.
    + now destruct output_file.
    + now destruct output_file.
    + apply init_output_file.
Qed.

End OutputFile.

(** ** Blank lines *)

Section BlankLines.

Context {JsonDict Instance Archive : Type}.

Local Abbreviation _PredictManager := (@_PredictManager JsonDict Instance).
Local Abbreviation Env := (@Env JsonDict Instance Archive).

Variable env : Env.
Variable self : _PredictManager.

Lemma loaded_lines (content : string) :
  map (load_line (_predictor self))
    (filter (fun l => negb (PyStr.isspace l)) (PyStr.lines content))
  = map (load_line (_predictor self))
      (filter (fun l => negb (PyStr.all_space l)) (PyStr.lines content)).
Proof.
  f_equal. apply filter_ext_Forall.
  eapply Forall_impl; [| apply isspace_line].
  now intros line ->.
Qed.

(** C10 (amended). In raw-JSON mode, every line of the input that
    consists of whitespace only (a blank line is one: it holds its
    newline) is skipped: the records that [_get_json_data] yields are,
    in order, the lines that do not consist of whitespace only, each
    loaded by [load_line], whatever the batch size; and with a batch size
    of 1 or more these are the records handed to the predictor by [run],
    so that a line of whitespace yields no record and no prediction.
    This holds of standard input and of a file that is opened and read to
    its end, with or without a compression type. *)
Theorem whitespace_lines_are_skipped :
  (_input_file self = "-" ->
   gen_items (_get_json_data env self) = loaded_records self (stdin env)
   /\ gen_exn (_get_json_data env self) = None
   /\ (_dataset_reader self = None ->
       (1 <= _batch_size self)%Z ->
       predicted_json (trace (run env self))
       = map (load_line (_predictor self))
           (filter (fun l => negb (PyStr.all_space l))
              (PyStr.lines (stdin env)))))
  /\ (forall path file_input,
         _input_file self <> "-" ->
         cached_path env (_input_file self) = Ok path ->
         open_compressed env path (compression_type self) = Ok file_input ->
         ts_failure file_input = None ->
         gen_items (_get_json_data env self)
         = loaded_records self (ts_content file_input)
         /\ gen_exn (_get_json_data env self) = None
         /\ (_dataset_reader self = None ->
             (1 <= _batch_size self)%Z ->
             predicted_json (trace (run env self))
             = map (load_line (_predictor self))
                 (filter (fun l => negb (PyStr.all_space l))
                    (PyStr.lines (ts_content file_input))))).
Proof.
  split.
  - intros Hinput.
    assert (Hsrc : _get_json_data env self
                   = load_lines (_predictor self) EvStdinLine
                       (PyStr.lines (stdin env)) GDone)
      by (unfold _get_json_data; now rewrite Hinput).
    assert (Hitems : gen_items (_get_json_data env self)
                     = loaded_records self (stdin env)).
    { rewrite Hsrc, load_lines_items, app_nil_r. apply loaded_lines. }
    assert (Hexn : gen_exn (_get_json_data env self) = None)
      by now rewrite Hsrc, load_lines_exn.
    repeat split; try assumption.
    intros Hmode Hn. rewrite run_predicted_json; assumption.
  - intros path file_input Hinput Hpath Hopen Hend.
    assert (Hsrc : _get_json_data env self
                   = GDo (EvCachedPath (_input_file self))
                       (GDo (EvOpenCompressed path (compression_type self))
                          (load_lines (_predictor self) EvFileLine
                             (PyStr.lines (ts_content file_input)) GDone))).
    { unfold _get_json_data, try_open_compressed.
      apply String.eqb_neq in Hinput. rewrite Hinput, Hpath.
      destruct (compression_type self); now rewrite Hopen, Hend. }
    assert (Hitems : gen_items (_get_json_data env self)
                     = loaded_records self (ts_content file_input)).
    { rewrite Hsrc. cbn [gen_items].
      rewrite load_lines_items, app_nil_r. apply loaded_lines. }
    assert (Hexn : gen_exn (_get_json_data env self) = None)
      by (rewrite Hsrc; cbn [gen_exn]; now rewrite load_lines_exn).
    repeat split; try assumption.
    intros Hmode Hn. rewrite run_predicted_json; assumption.
Qed.

End BlankLines.

(** ** The constructor and the command *)

Section Command.

Context {JsonDict Instance Archive : Type}.

Local Abbreviation event := (@event JsonDict Instance).
Local Abbreviation Predictor := (@Predictor JsonDict Instance).
Local Abbreviation _PredictManager := (@_PredictManager JsonDict Instance).
Local Abbreviation Env := (@Env JsonDict Instance Archive).

Variable env : Env.

(** The checks of the constructor, once the output file is dealt
    with. *)
Lemma init_refuses (predictor : Predictor) (input_file : string)
    (output_file : option string) (batch_size : Z)
    (print_to_console has_dataset_reader : bool)
    (compression multitask_head : option string) :
  refused_combination (configured_reader predictor has_dataset_reader)
    multitask_head = true ->
  match output_file with
  | Some path =>
      match open_for_writing env path with
      | Ok _ =>
          exists msg,
            value (__init__ env predictor input_file output_file batch_size
                     print_to_console has_dataset_reader compression
                     multitask_head)
            = Err (ConfigurationError msg)
      | Err e =>
          value (__init__ env predictor input_file output_file batch_size
                   print_to_console has_dataset_reader compression
                   multitask_head)
          = Err e
      end
  | None =>
      exists msg,
        value (__init__ env predictor input_file output_file batch_size
                 print_to_console has_dataset_reader compression
                 multitask_head)
        = Err (ConfigurationError msg)
  end.
Proof.
  unfold refused_combination, configured_reader, __init__.
  destruct output_file as [path |]; cbn.
  - destruct (open_for_writing env path) as [[] | e]; cbn; [| reflexivity].
    destruct multitask_head, has_dataset_reader; cbn;
      try discriminate; eauto;
      destruct (Predictor_dataset_reader predictor) as [r |]; cbn;
      try discriminate; eauto;
      destruct (is_MultiTaskDatasetReader r); cbn;
      try discriminate; eauto.
  - destruct multitask_head, has_dataset_reader; cbn;
      try discriminate; eauto;
      destruct (Predictor_dataset_reader predictor) as [r |]; cbn;
      try discriminate; eauto;
      destruct (is_MultiTaskDatasetReader r); cbn;
      try discriminate; eauto.
Qed.

(** C4 (amended). For every direct construction of the manager: if a
    head name is given and no dataset reader is attached, or a head name
    is given and the reader is not a multitask reader, or the reader is
    a multitask reader and no head name is given, the constructor
    fails: with the error of the opening when an output path is given
    and cannot be opened, and with a configuration error otherwise.  All
    that the constructor did before is the opening of the output file:
    no record is read and no prediction is made. *)
Theorem constructor_refuses_bad_combination
    (predictor : Predictor) (input_file : string)
    (output_file : option string) (batch_size : Z)
    (print_to_console has_dataset_reader : bool)
    (compression multitask_head : option string) :
  refused_combination (configured_reader predictor has_dataset_reader)
    multitask_head = true ->
  (output_file = None
   \/ (exists path,
          output_file = Some path /\ open_for_writing env path = Ok tt) ->
   exists msg,
     value (__init__ env predictor input_file output_file batch_size
              print_to_console has_dataset_reader compression
              multitask_head)
     = Err (ConfigurationError msg))
  /\ (forall path e,
         output_file = Some path ->
         open_for_writing env path = Err e ->
         value (__init__ env predictor input_file output_file batch_size
                  print_to_console has_dataset_reader compression
                  multitask_head)
         = Err e)
  /\ only is_input_read
       (trace (__init__ env predictor input_file output_file batch_size
                 print_to_console has_dataset_reader compression
                 multitask_head))
     = []
  /\ only is_prediction
       (trace (__init__ env predictor input_file output_file batch_size
                 print_to_console has_dataset_reader compression
                 multitask_head))
     = [].
Proof.
  intros Hbad.
  pose proof (init_refuses predictor input_file output_file batch_size
                print_to_console has_dataset_reader compression
                multitask_head Hbad) as H.
  repeat split.
  - intros [-> | (path & -> & Hopen)]; [exact H |].
    now rewrite Hopen in H.
  - intros path e -> Hopen. now rewrite Hopen in H.
  - rewrite init_trace. now destruct output_file.
  - rewrite init_trace. now destruct output_file.
Qed.

Lemma get_predictor_trace (args : Namespace.t) :
  trace (_get_predictor env args) = [].
Proof.
  unfold _get_predictor, lift.
  destruct (check_for_gpu env (Namespace.cuda_device args)); cbn;
    [| reflexivity].
  destruct (load_archive env _ _ _ _); cbn; [| reflexivity].
  destruct (String.length _ <=? 0)%nat; cbn; [reflexivity |].
  now destruct (json_loads env _).
Qed.

(** C7 (amended). For every invocation with the silent flag set and no
    output file (none given, or an empty path) for which the loading of
    the predictor succeeds, the command prints the two lines of its
    message and exits with status 0; it does nothing else: no manager
    is constructed, no file is opened, no record is read, no prediction
    is made or put out. *)
Theorem silent_without_output_exits_early
    (args : Namespace.t) (predictor : Predictor) :
  Namespace.silent args = true ->
  PyStr.truthy (Namespace.output_file args) = false ->
  value (_get_predictor env args) = Ok predictor ->
  _predict env args
  = ([EvSetFileFriendlyLogging (Namespace.file_friendly_logging args);
      EvPrint ["--silent specified without --output-file."];
      EvPrint ["Exiting early because no output will be created."]],
     Err (SystemExit 0))
  /\ only is_input_read (trace (_predict env args)) = []
  /\ only is_prediction (trace (_predict env args)) = []
  /\ only is_record_output (trace (_predict env args)) = []
  /\ only is_open_output (trace (_predict env args)) = [].
Proof.
  intros Hsilent Hout Hpred.
  assert (Hrun : _predict env args
                 = ([EvSetFileFriendlyLogging
                       (Namespace.file_friendly_logging args);
                     EvPrint ["--silent specified without --output-file."];
                     EvPrint ["Exiting early because no output will be created."]],
                    Err (SystemExit 0))).
  { unfold _predict.
    rewrite (M_eta (_get_predictor env args)), get_predictor_trace, Hpred.
    rewrite Hsilent, Hout. reflexivity. }
  now rewrite Hrun.
Qed.

End Command.

(** ** Loops, however they end *)

Section LoopsAgain.

Context {JsonDict Instance : Type}.

Local Abbreviation event := (@event JsonDict Instance).
Local Abbreviation M := (@M JsonDict Instance).
Local Abbreviation gen := (@gen JsonDict Instance).

(** When no turn of the body fails, a loop ends as its generator
    does. *)
Lemma for_each_value {A S} (Q : A -> Prop) (body : A -> S -> M S)
    (g : gen A) :
  Forall Q (gen_items g) ->
  (forall a s, Q a -> exists s', value (body a s) = Ok s') ->
  forall s,
    match gen_exn g with
    | Some e => value (for_each g body s) = Err e
    | None => exists s', value (for_each g body s) = Ok s'
    end.
Proof.
  intros Hit Hbody.
  induction g as [| e | ev k IH | a k IH];
    cbn [for_each gen_items gen_exn] in *; intros s.
  - now exists s.
  - reflexivity.
  - specialize (IH Hit s). rewrite value_bind. exact IH.
  - inversion Hit as [| ? ? Ha Hk]; subst.
    destruct (Hbody a s Ha) as [s' Hs'].
    rewrite value_bind, Hs'. apply IH. exact Hk.
Qed.

(** A projection that is blind to the body sees, in a loop whose body
    does not fail, the effects of the generator, all of them and nothing
    else. *)
Lemma for_each_generator_events {A S X} (h : event -> list X) (Q : A -> Prop)
    (body : A -> S -> M S) (g : gen A) :
  Forall Q (gen_items g) ->
  (forall a s, Q a ->
     flat_map h (trace (body a s)) = []
     /\ exists s', value (body a s) = Ok s') ->
  forall s,
    flat_map h (trace (for_each g body s)) = flat_map h (gen_events g).
Proof.
  intros Hit Hbody.
  induction g as [| e | ev k IH | a k IH];
    cbn [for_each gen_items gen_events] in *; intros s.
  - reflexivity.
  - reflexivity.
  - rewrite trace_bind. cbn. now rewrite IH.
  - inversion Hit as [| ? ? Ha Hk]; subst.
    destruct (Hbody a s Ha) as [Hnil [s' Hs']].
    rewrite trace_bind, flat_map_app, Hnil, Hs'. cbn. now apply IH.
Qed.

(** Two projections that agree on the effects of the generator and on
    every turn of the body agree on the loop, however it ends. *)
Lemma for_each_agree {A S X} (h1 h2 : event -> list X) (Q : A -> Prop)
    (body : A -> S -> M S) (g : gen A) :
  Forall (fun ev => h1 ev = h2 ev) (gen_events g) ->
  Forall Q (gen_items g) ->
  (forall a s, Q a ->
     flat_map h1 (trace (body a s)) = flat_map h2 (trace (body a s))) ->
  forall s,
    flat_map h1 (trace (for_each g body s))
    = flat_map h2 (trace (for_each g body s)).
Proof.
  intros Hev Hit Hbody.
  induction g as [| e | ev k IH | a k IH];
    cbn [for_each gen_items gen_events] in *; intros s.
  - reflexivity.
  - reflexivity.
  - inversion Hev as [| ? ? Hh Hk]; subst.
    rewrite trace_bind. cbn. now rewrite Hh, IH.
  - inversion Hit as [| ? ? Ha Hk]; subst.
    rewrite trace_bind, !flat_map_app, Hbody by assumption.
    f_equal. destruct (value (body a s)); [now apply IH | reflexivity].
Qed.

End LoopsAgain.

(** ** Batches, however the source ends *)

Section BatchesAgain.

Context {JsonDict Instance : Type}.

Local Abbreviation event := (@event JsonDict Instance).
Local Abbreviation M := (@M JsonDict Instance).
Local Abbreviation gen := (@gen JsonDict Instance).
Local Abbreviation _PredictManager := (@_PredictManager JsonDict Instance).

Variable self : _PredictManager.
Variable A : Type.
Variable show : A -> string.
Variable predict : list A -> gen string.
Variable call : list A -> event.
Variable results : list A -> list JsonDict.

Hypothesis predict_eq :
  forall batch,
    predict batch = GDo (call batch) (yield_lines self (results batch)).

Variable source : gen A.

(** The groups of a source: never empty, never above the batch size. *)
Lemma groups_within :
  Forall (fun group =>
            1 <= length group
            /\ (Z.of_nat (length group) <= _batch_size self)%Z)
    (gen_items (lazy_groups_of source (_batch_size self))).
Proof.
  unfold lazy_groups_of.
  destruct (Z.ltb_spec (_batch_size self) 1); [constructor |].
  eapply Forall_impl;
    [| apply (lazy_groups_from_sizes source (n := Z.to_nat (_batch_size self)) []);
       simpl; lia].
  simpl. intros group Hg. lia.
Qed.

Lemma groups_events_any :
  Forall (fun ev => In ev (gen_events source))
    (gen_events (lazy_groups_of source (_batch_size self))).
Proof.
  unfold lazy_groups_of.
  destruct (Z.ltb_spec (_batch_size self) 1); [constructor |].
  rewrite lazy_groups_from_events. now apply Forall_forall.
Qed.

Lemma for_batch_ok (batch : list A) (index : nat) :
  1 <= length batch ->
  exists index',
    value (for_batch self show predict batch index) = Ok index'.
Proof.
  intros Hb.
  rewrite (for_batch_eq self show predict call results predict_eq)
    by (intros ->; simpl in Hb; lia).
  cbn. eexists. reflexivity.
Qed.

(** A property of the effects of the source, of the call on every
    group the batch size allows and of every output holds of the whole
    loop, whatever the batch size and however the loop ends. *)
Lemma for_batches_Forall_within (P : event -> Prop) :
  Forall P (gen_events source) ->
  (forall batch,
      1 <= length batch ->
      (Z.of_nat (length batch) <= _batch_size self)%Z ->
      P (call batch)) ->
  (forall index pairs, Forall P (outputs_for self index pairs)) ->
  Forall P (trace (for_batches self show predict source)).
Proof.
  intros Hev Hcall Hout. unfold for_batches.
  eapply for_each_Forall.
  - eapply Forall_impl; [| apply groups_events_any].
    intros ev Hin. eapply Forall_forall in Hev; eassumption.
  - apply groups_within.
  - intros batch index [Hb Hn]. cbv beta.
    rewrite (for_batch_eq self show predict call results predict_eq)
      by (intros ->; simpl in Hb; lia).
    constructor; [now apply Hcall | apply Hout].
Qed.

(** A projection that is blind to the calls and to the outputs sees
    the effects of the source, all of them and nothing else. *)
Lemma for_batches_source_events {X} (h : event -> list X) :
  (1 <= _batch_size self)%Z ->
  (forall batch, h (call batch) = []) ->
  (forall ev, is_record_output ev = true -> h ev = []) ->
  flat_map h (trace (for_batches self show predict source))
  = flat_map h (gen_events source).
Proof.
  intros Hn Hcall Hout. unfold for_batches.
  rewrite for_each_generator_events
    with (Q := fun group : list A => 1 <= length group).
  - now rewrite groups_events.
  - now apply groups_sizes.
  - intros batch index Hb. split; [| now apply for_batch_ok].
    rewrite (for_batch_eq self show predict call results predict_eq)
      by (intros ->; simpl in Hb; lia).
    cbn. now rewrite Hcall, blind_outputs_for.
Qed.

(** The loop ends as the source does. *)
Lemma for_batches_value :
  (1 <= _batch_size self)%Z ->
  match gen_exn source with
  | Some e => value (for_batches self show predict source) = Err e
  | None => exists index, value (for_batches self show predict source) = Ok index
  end.
Proof.
  intros Hn. rewrite <- (groups_exn self source Hn). unfold for_batches.
  apply for_each_value with (Q := fun group : list A => 1 <= length group).
  - now apply groups_sizes.
  - intros batch index Hb. now apply for_batch_ok.
Qed.

(** Two projections that agree on the effects of the source, on every
    call and on the outputs agree on the loop. *)
Lemma for_batches_agree {X} (h1 h2 : event -> list X) :
  Forall (fun ev => h1 ev = h2 ev) (gen_events source) ->
  (forall batch, h1 (call batch) = h2 (call batch)) ->
  (forall index pairs,
      flat_map h1 (outputs_for self index pairs)
      = flat_map h2 (outputs_for self index pairs)) ->
  flat_map h1 (trace (for_batches self show predict source))
  = flat_map h2 (trace (for_batches self show predict source)).
Proof.
  intros Hev Hcall Hout. unfold for_batches.
  apply for_each_agree with (Q := fun group : list A => 1 <= length group).
  - eapply Forall_impl; [| apply groups_events_any].
    intros ev Hin. eapply Forall_forall in Hev; eassumption.
  - eapply Forall_impl; [| apply groups_within]. now intros group [Hb _].
  - intros batch index Hb.
    rewrite (for_batch_eq self show predict call results predict_eq)
      by (intros ->; simpl in Hb; lia).
    cbn. now rewrite Hcall, Hout.
Qed.

(** When the source raises, the records handed to the predictor are
    those of the groups that were complete: a prefix of the records the
    source yielded, whose length is a multiple of the batch size, and
    fewer records than the batch size are lost. *)
Lemma lazy_groups_from_raise (inputs_of : event -> list A) (e : exn)
    (n : nat) :
  1 <= n ->
  (forall batch, inputs_of (call batch) = batch) ->
  (forall ev, is_record_output ev = true -> inputs_of ev = []) ->
  forall (g : gen A),
    Forall (fun ev => inputs_of ev = []) (gen_events g) ->
    gen_exn g = Some e ->
    forall acc index,
      length acc < n ->
      exists k rest,
        acc ++ gen_items g
        = flat_map inputs_of
            (trace (for_each (lazy_groups_from g n acc)
                      (for_batch self show predict) index))
          ++ rest
        /\ length rest < n
        /\ length (flat_map inputs_of
                     (trace (for_each (lazy_groups_from g n acc)
                               (for_batch self show predict) index)))
           = k * n.
Proof.
  intros Hn Hcall Hout.
  induction g as [| e' | ev g IH | a g IH];
    cbn [lazy_groups_from gen_items gen_events gen_exn for_each];
    intros Hev Hexn acc index Hacc.
  - discriminate.
  - exists 0, acc. cbn. rewrite app_nil_r. auto.
  - inversion Hev as [| ? ? Hh Hg]; subst.
    destruct (IH Hg Hexn acc index Hacc) as (k & rest & Heq & Hrest & Hlen).
    exists k, rest. rewrite trace_bind. cbn. rewrite Hh. cbn. auto.
  - destruct (Nat.eqb_spec (length (acc ++ [a])) n) as [Hfull | Hpart].
    + cbn [for_each]. rewrite trace_bind.
      rewrite (for_batch_eq self show predict call results predict_eq)
        by (now destruct acc).
      cbn [trace value fst snd].
      match goal with
      | |- context [for_each _ _ ?i] =>
          destruct (IH Hev Hexn [] i) as (k & rest & Heq & Hrest & Hlen);
          [simpl; lia |]
      end.
      exists (S k), rest.
      rewrite flat_map_app. cbn [flat_map].
      rewrite Hcall, blind_outputs_for, app_nil_r by assumption.
      cbn [app] in Heq.
      match type of Heq with
      | _ = ?p ++ rest => set (handed := p) in *
      end.
      repeat split.
      * rewrite Heq, <- !app_assoc. reflexivity.
      * assumption.
      * rewrite length_app, Hlen, Hfull. cbn. lia.
    + destruct (IH Hev Hexn (acc ++ [a]) index) as (k & rest & Heq & Hrest & Hlen).
      * rewrite length_app in *. cbn in *. lia.
      * exists k, rest. rewrite <- app_assoc in Heq. auto.
Qed.

(** The lines written for a batch are as many as [zip] pairs: the
    lines beyond the records of the batch are dropped. *)
Lemma written_outputs_for_firstn (f : string) (lines : list string) :
  _output_file self = Some f ->
  forall (shown : list string) (index : nat),
    written (outputs_for self index (combine shown lines))
    = firstn (length shown) lines.
Proof.
  intros Hf. unfold written.
  induction lines as [| line lines IH]; intros [| m shown] index;
    cbn [combine outputs_for flat_map firstn length]; try reflexivity.
  rewrite flat_map_app, maybe_print_trace, Hf, flat_map_app.
  fold (written (outputs_for self (index + 1) (combine shown lines))).
  unfold written. rewrite IH.
  now destruct (_print_to_console self).
Qed.

End BatchesAgain.

(** ** How [run] ends, and what it reads *)

Section RunOutcome.

Context {JsonDict Instance Archive : Type}.

Local Abbreviation event := (@event JsonDict Instance).
Local Abbreviation _PredictManager := (@_PredictManager JsonDict Instance).
Local Abbreviation Env := (@Env JsonDict Instance Archive).

Variable env : Env.
Variable self : _PredictManager.

Lemma run_loop_value :
  (1 <= _batch_size self)%Z ->
  match source_exn env self with
  | Some e => value (run_loop env self) = Err e
  | None => exists index, value (run_loop env self) = Ok index
  end.
Proof.
  intros Hn. unfold source_exn, run_loop.
  destruct (_dataset_reader self) as [reader |]; cbn.
  - apply (for_batches_value self (str env) _ _ _
             (predict_instances_eq self) (_get_instance_data self) Hn).
  - apply (for_batches_value self (json_dumps env) _ _ _
             (predict_json_eq self) (_get_json_data env self) Hn).
Qed.

Lemma run_loop_never_closes :
  only is_close_output (trace (run_loop env self)) = [].
Proof.
  apply only_none.
  eapply Forall_impl; [| apply (run_loop_no_open_no_close env self)].
  now intros ev [].
Qed.

(** [run] returns or raises as its source does. *)
Lemma run_value_of_source :
  (1 <= _batch_size self)%Z ->
  value (run env self)
  = match source_exn env self with
    | None => Ok tt
    | Some e => Err e
    end.
Proof.
  intros Hn. pose proof (run_loop_value Hn) as Hloop. rewrite run_value.
  destruct (source_exn env self) as [e |].
  - now rewrite Hloop.
  - now destruct Hloop as [index ->].
Qed.

(** X1. With a batch size of 1 or more, [run] ends as its source of
    records does: it returns when the source is read to its end, and
    when the source raises it raises the same exception and does not
    close the output file. *)
Theorem run_ends_as_its_source :
  (1 <= _batch_size self)%Z ->
  match source_exn env self with
  | None => value (run env self) = Ok tt
  | Some e =>
      value (run env self) = Err e
      /\ only is_close_output (trace (run env self)) = []
  end.
Proof.
  intros Hn. pose proof (run_loop_value Hn) as Hloop.
  rewrite run_value, run_trace, only_app, run_loop_never_closes.
  destruct (source_exn env self) as [e |].
  - now rewrite Hloop.
  - destruct Hloop as [index ->]. reflexivity.
Qed.

Lemma source_event_reads_only (ev : event) :
  is_record_output ev = true ->
  (if is_input_read ev then [ev] else []) = [].
Proof. now destruct ev as [| [| ? [| ? [| ? ?]]] | | | | | | | | | | | |]. Qed.

(** What [run] reads is what its source reads. *)
Lemma run_reads :
  (1 <= _batch_size self)%Z ->
  only is_input_read (trace (run env self))
  = only is_input_read (source_events env self).
Proof.
  intros Hn. unfold only.
  rewrite run_blind_to_close by reflexivity.
  unfold source_events, run_loop.
  destruct (_dataset_reader self) as [reader |]; cbn.
  - apply (for_batches_source_events self (str env) _ _ _
             (predict_instances_eq self) (_get_instance_data self)); trivial.
    + now intros [| x [| y rest]].
    + apply source_event_reads_only.
  - apply (for_batches_source_events self (json_dumps env) _ _ _
             (predict_json_eq self) (_get_json_data env self)); trivial.
    + now intros [| x [| y rest]].
    + apply source_event_reads_only.
Qed.

Lemma only_map_all (keep : event -> bool) {X} (f : X -> event) (l : list X) :
  (forall x, keep (f x) = true) -> only keep (map f l) = map f l.
Proof.
  intros H. unfold only. induction l as [| x l IH]; cbn; [reflexivity |].
  now rewrite H, IH.
Qed.

Lemma only_map_none (keep : event -> bool) {X} (f : X -> event) (l : list X) :
  (forall x, keep (f x) = false) -> only keep (map f l) = [].
Proof.
  intros H. unfold only. induction l as [| x l IH]; cbn; [reflexivity |].
  now rewrite H, IH.
Qed.

(** X2. With a batch size of 1 or more: in raw-JSON mode on standard
    input, [run] reads every line of standard input once, in order, and
    reads nothing else; in reader mode on a path, it calls [read] of the
    dataset reader exactly once, on the input path, with the head name
    as [force_task] for a multitask reader and with no [force_task]
    otherwise, whether or not the reading then fails. *)
Theorem run_reads_its_input_once :
  (1 <= _batch_size self)%Z ->
  (_dataset_reader self = None ->
   _input_file self = "-" ->
   only is_input_read (trace (run env self))
   = map EvStdinLine (PyStr.lines (stdin env)))
  /\ (forall reader,
         _dataset_reader self = Some reader ->
         _input_file self <> "-" ->
         is_MultiTaskDatasetReader reader = false ->
         only is_input_read (trace (run env self))
         = [EvReaderRead (_input_file self) None])
  /\ (forall reader head,
         _dataset_reader self = Some reader ->
         _input_file self <> "-" ->
         is_MultiTaskDatasetReader reader = true ->
         _multitask_head self = Some head ->
         only is_input_read (trace (run env self))
         = [EvReaderRead (_input_file self) (Some head)]).
Proof.
  intros Hn. rewrite (run_reads Hn). unfold source_events.
  split; [| split].
  - intros Hmode Hinput. rewrite Hmode. unfold _get_json_data.
    rewrite Hinput. cbn. rewrite load_lines_events, app_nil_r.
    now apply only_map_all.
  - intros reader Hmode Hinput Hplain. rewrite Hmode.
    unfold _get_instance_data, yield_from_read.
    apply String.eqb_neq in Hinput. rewrite Hinput, Hmode, Hplain.
    cbn. rewrite yield_all_events.
    now destruct (rs_failure _).
  - intros reader head Hmode Hinput Hmulti Hhead. rewrite Hmode.
    unfold _get_instance_data, yield_from_read.
    apply String.eqb_neq in Hinput. rewrite Hinput, Hmode, Hmulti, Hhead.
    cbn. rewrite yield_all_events.
    now destruct (rs_failure _).
Qed.

(** X3. In raw-JSON mode on a file, with a batch size of 1 or more,
    the failures outside the handler of [OSError] end [run]: an
    exception of [cached_path], an [OSError] included, and an exception
    of [open_compressed] that is not an [OSError] are raised by [run],
    which prints no message, makes no prediction and does not close the
    output file. *)
Theorem unhandled_input_failures :
  _dataset_reader self = None ->
  _input_file self <> "-" ->
  (1 <= _batch_size self)%Z ->
  (forall e,
      cached_path env (_input_file self) = Err e ->
      run env self = ([EvCachedPath (_input_file self)], Err e))
  /\ (forall path e,
         cached_path env (_input_file self) = Ok path ->
         open_compressed env path (compression_type self) = Err e ->
         (forall m, e <> OSError m) ->
         run env self
         = ([EvCachedPath (_input_file self);
             EvOpenCompressed path (compression_type self)],
            Err e)).
Proof.
  intros Hmode Hinput Hn. apply String.eqb_neq in Hinput.
  split.
  - intros e Hpath.
    assert (Hsrc : _get_json_data env self
                   = GDo (EvCachedPath (_input_file self)) (GRaise e))
      by (unfold _get_json_data; now rewrite Hinput, Hpath).
    rewrite run_eq. unfold run_loop, for_batches.
    rewrite Hmode, Hsrc. unfold lazy_groups_of.
    now destruct (Z.ltb_spec (_batch_size self) 1); [lia |].
  - intros path e Hpath Hopen Hnot.
    assert (Hsrc : _get_json_data env self
                   = GDo (EvCachedPath (_input_file self))
                       (GDo (EvOpenCompressed path (compression_type self))
                          (GRaise e))).
    { unfold _get_json_data, try_open_compressed.
      rewrite Hinput, Hpath.
      destruct (compression_type self); rewrite Hopen;
        destruct e; cbn; try reflexivity; now elim (Hnot msg). }
    rewrite run_eq. unfold run_loop, for_batches.
    rewrite Hmode, Hsrc. unfold lazy_groups_of.
    now destruct (Z.ltb_spec (_batch_size self) 1); [lia |].
Qed.

End RunOutcome.

(** ** Handled and unhandled failures of the reading *)

Section StopOnError.

Context {JsonDict Instance Archive : Type}.

Local Abbreviation event := (@event JsonDict Instance).
Local Abbreviation _PredictManager := (@_PredictManager JsonDict Instance).
Local Abbreviation Env := (@Env JsonDict Instance Archive).

Variable env : Env.
Variable self : _PredictManager.

Lemma message_of_source :
  (1 <= _batch_size self)%Z ->
  _dataset_reader self = None ->
  only is_message_print (trace (run env self))
  = only is_message_print (gen_events (_get_json_data env self)).
Proof.
  intros Hn Hmode. unfold only.
  rewrite run_blind_to_close, run_loop_json by easy.
  apply (for_batches_source_events self (json_dumps env) _ _ _
           (predict_json_eq self) (_get_json_data env self)); trivial.
  - now intros [| x [| y rest]].
  - now intros [| [| ? [| ? [| ? ?]]] | | | | | | | | | | | |].
Qed.

(** X4. In raw-JSON mode on a file that [cached_path] resolves, with a
    batch size of 1 or more, an [OSError] stops the reading and nothing
    else: [run] prints one message (the one that asks for the compression
    type when none is set, the one that asks for the correct type when
    one is set), returns, and the records handed to the predictor are
    those of the lines read before the failure: none when the opening
    fails, those of the text delivered when the reading fails. *)
Theorem oserror_stops_the_reading (path : string) :
  _dataset_reader self = None ->
  _input_file self <> "-" ->
  (1 <= _batch_size self)%Z ->
  cached_path env (_input_file self) = Ok path ->
  (forall m,
      open_compressed env path (compression_type self) = Err (OSError m) ->
      run env self
      = ([EvCachedPath (_input_file self);
          EvOpenCompressed path (compression_type self);
          EvPrint [oserror_message self]]
         ++ trace (close_output self),
         Ok tt))
  /\ (forall file_input m,
         open_compressed env path (compression_type self) = Ok file_input ->
         ts_failure file_input = Some (OSError m) ->
         value (run env self) = Ok tt
         /\ predicted_json (trace (run env self))
            = map (load_line (_predictor self))
                (filter (fun l => negb (PyStr.all_space l))
                   (PyStr.lines (ts_content file_input)))
         /\ only is_message_print (trace (run env self))
            = [EvPrint [oserror_message self]]).
Proof.
  intros Hmode Hinput Hn Hpath. apply String.eqb_neq in Hinput. split.
  - intros m Hopen.
    assert (Hsrc : _get_json_data env self
                   = GDo (EvCachedPath (_input_file self))
                       (GDo (EvOpenCompressed path (compression_type self))
                          (GDo (EvPrint [oserror_message self]) GDone))).
    { unfold _get_json_data, try_open_compressed, oserror_message.
      rewrite Hinput, Hpath.
      destruct (compression_type self); now rewrite Hopen. }
    rewrite run_eq. unfold run_loop, for_batches.
    rewrite Hmode, Hsrc. unfold lazy_groups_of.
    destruct (Z.ltb_spec (_batch_size self) 1); [lia |].
    unfold close_output. now destruct (_output_file self).
  - intros file_input m Hopen Hfail.
    assert (Hsrc : _get_json_data env self
                   = GDo (EvCachedPath (_input_file self))
                       (GDo (EvOpenCompressed path (compression_type self))
                          (load_lines (_predictor self) EvFileLine
                             (PyStr.lines (ts_content file_input))
                             (GDo (EvPrint [oserror_message self]) GDone)))).
    { unfold _get_json_data, try_open_compressed, oserror_message.
      rewrite Hinput, Hpath.
      destruct (compression_type self); now rewrite Hopen, Hfail. }
    assert (Hexn : gen_exn (_get_json_data env self) = None)
      by (rewrite Hsrc; cbn; now rewrite load_lines_exn).
    repeat split.
    + rewrite (run_value_of_source env self Hn).
      unfold source_exn. now rewrite Hmode, Hexn.
    + rewrite run_predicted_json by assumption.
      rewrite Hsrc. cbn [gen_items].
      rewrite load_lines_items. cbn. rewrite app_nil_r. apply loaded_lines.
    + rewrite message_of_source by assumption.
      rewrite Hsrc. cbn [gen_events].
      rewrite load_lines_events. unfold only. cbn.
      rewrite flat_map_app. cbn.
      fold (only is_message_print
              (map (EvFileLine (JsonDict := JsonDict) (Instance := Instance))
                 (PyStr.lines (ts_content file_input)))).
      now rewrite only_map_none.
Qed.

Lemma predicted_json_blind (ev : event) :
  is_record_output ev = true ->
  match ev with
  | EvPredictJson x => [x]
  | EvPredictBatchJson xs => xs
  | _ => []
  end = [].
Proof. now destruct ev as [| [| ? [| ? [| ? ?]]] | | | | | | | | | | | |]. Qed.

Lemma predicted_instances_blind (ev : event) :
  is_record_output ev = true ->
  match ev with
  | EvPredictInstance x => [x]
  | EvPredictBatchInstance xs => xs
  | _ => []
  end = [].
Proof. now destruct ev as [| [| ? [| ? [| ? ?]]] | | | | | | | | | | | |]. Qed.

(** X5. With a batch size [n] of 1 or more, when the source of records
    raises, [run] raises the same exception, and the records handed to
    the predictor before are those of the groups that were complete: a
    prefix of the records the source yielded whose length is a multiple
    of [n]; the records lost, those of the group being collected, are
    fewer than [n], so that none is lost with a batch size of 1. *)
Theorem raising_source_loses_less_than_a_batch (e : exn) :
  (1 <= _batch_size self)%Z ->
  source_exn env self = Some e ->
  value (run env self) = Err e
  /\ match _dataset_reader self with
     | Some _ =>
         exists k rest,
           gen_items (_get_instance_data self)
           = predicted_instances (trace (run env self)) ++ rest
           /\ (Z.of_nat (length rest) < _batch_size self)%Z
           /\ length (predicted_instances (trace (run env self)))
              = k * Z.to_nat (_batch_size self)
     | None =>
         exists k rest,
           gen_items (_get_json_data env self)
           = predicted_json (trace (run env self)) ++ rest
           /\ (Z.of_nat (length rest) < _batch_size self)%Z
           /\ length (predicted_json (trace (run env self)))
              = k * Z.to_nat (_batch_size self)
     end.
Proof.
  intros Hn Hexn. split.
  - now rewrite (run_value_of_source env self Hn), Hexn.
  - unfold source_exn in Hexn.
    unfold predicted_instances, predicted_json.
    rewrite !run_blind_to_close by reflexivity.
    unfold run_loop, for_batches, lazy_groups_of.
    destruct (Z.ltb_spec (_batch_size self) 1); [lia |].
    destruct (_dataset_reader self) as [reader |]; cbn [is_None negb].
    + destruct (lazy_groups_from_raise self (str env) _ _ _
                  (predict_instances_eq self)
                  (fun ev : event =>
                     match ev with
                     | EvPredictInstance x => [x]
                     | EvPredictBatchInstance xs => xs
                     | _ => []
                     end)
                  (e := e) (n := Z.to_nat (_batch_size self)))
        with (g := _get_instance_data self) (acc := @nil Instance)
             (index := 0)
        as (k & rest & Heq & Hrest & Hlen); try assumption; try lia.
      * now intros [| x [| y l]].
      * apply predicted_instances_blind.
      * eapply Forall_impl; [| apply instance_source_events].
        apply source_event_not_predicted_instances.
      * cbn; lia.
      * exists k, rest. repeat split; try assumption. lia.
    + destruct (lazy_groups_from_raise self (json_dumps env) _ _ _
                  (predict_json_eq self)
                  (fun ev : event =>
                     match ev with
                     | EvPredictJson x => [x]
                     | EvPredictBatchJson xs => xs
                     | _ => []
                     end)
                  (e := e) (n := Z.to_nat (_batch_size self)))
        with (g := _get_json_data env self) (acc := @nil JsonDict)
             (index := 0)
        as (k & rest & Heq & Hrest & Hlen); try assumption; try lia.
      * now intros [| x [| y l]].
      * apply predicted_json_blind.
      * eapply Forall_impl; [| apply json_source_events].
        apply source_event_not_predicted_json.
      * cbn; lia.
      * exists k, rest. repeat split; try assumption. lia.
Qed.

End StopOnError.

(** ** What is printed and what is written *)

Section Sinks.

Context {JsonDict Instance Archive : Type}.

Local Abbreviation event := (@event JsonDict Instance).
Local Abbreviation _PredictManager := (@_PredictManager JsonDict Instance).
Local Abbreviation Env := (@Env JsonDict Instance Archive).

Variable env : Env.
Variable self : _PredictManager.

(** A property of the effects of the sources, of the calls the batch
    size allows and of the outputs holds of [run_loop]. *)
Lemma run_loop_Forall_within (P : event -> Prop) :
  (forall ev, is_source_event ev = true -> P ev) ->
  (forall batch : list JsonDict,
      1 <= length batch ->
      (Z.of_nat (length batch) <= _batch_size self)%Z ->
      P (call_json batch)) ->
  (forall batch : list Instance,
      1 <= length batch ->
      (Z.of_nat (length batch) <= _batch_size self)%Z ->
      P (call_instances batch)) ->
  (forall index pairs, Forall P (outputs_for self index pairs)) ->
  Forall P (trace (run_loop env self)).
Proof.
  intros Hsrc Hj Hi Hout. unfold run_loop.
  destruct (negb (is_None (_dataset_reader self))).
  - apply (for_batches_Forall_within self (str env) _ _ _
             (predict_instances_eq self)); try assumption.
    eapply Forall_impl; [| apply instance_source_events]. exact Hsrc.
  - apply (for_batches_Forall_within self (json_dumps env) _ _ _
             (predict_json_eq self)); try assumption.
    eapply Forall_impl; [| apply json_source_events]. exact Hsrc.
Qed.

Lemma run_Forall (P : event -> Prop) :
  Forall P (trace (run_loop env self)) ->
  (forall f, P (EvCloseOutput f)) ->
  Forall P (trace (run env self)).
Proof.
  intros Hloop Hclose. rewrite run_trace. apply Forall_app; split; trivial.
  destruct (value (run_loop env self)); [| constructor].
  unfold close_output. destruct (_output_file self); repeat constructor.
  apply Hclose.
Qed.

Lemma outputs_for_Forall (P : event -> Prop) :
  (forall index line m,
      Forall P (trace (_maybe_print_to_console_and_file self index line
                         (Some m)))) ->
  forall index pairs, Forall P (outputs_for self index pairs).
Proof.
  intros H index pairs. revert index.
  induction pairs as [| [m line] rest IH]; intros index; cbn.
  - constructor.
  - apply Forall_app; split; [apply H | apply IH].
Qed.

(** X6. A sink that is off receives nothing, however [run] ends: with
    printing off, [run] prints no input and no prediction (a message
    about the compression type can still be printed); with no output
    file, it writes nothing. *)
Theorem disabled_sinks_receive_nothing :
  (_print_to_console self = false ->
   only is_record_print (trace (run env self)) = []
   /\ printed_predictions (trace (run env self)) = [])
  /\ (_output_file self = None ->
      only is_write (trace (run env self)) = []
      /\ written (trace (run env self)) = []).
Proof.
  split.
  - intros Hoff.
    assert (H : Forall (fun ev : event => is_record_print ev = false)
                  (trace (run env self))).
    { apply run_Forall; [| reflexivity].
      apply run_loop_Forall_within.
      - now intros [| [| ? [| ? ?]] | | | | | | | | | | | |].
      - now intros [| x [| y rest]].
      - now intros [| x [| y rest]].
      - apply outputs_for_Forall. intros index line m.
        rewrite maybe_print_trace, Hoff.
        destruct (_output_file self); repeat constructor. }
    split; [now apply only_none |].
    apply flat_map_nil_Forall. eapply Forall_impl; [| exact H].
    now intros [| [| ? [| ? [| ? ?]]] | | | | | | | | | | | |].
  - intros Hnone.
    assert (H : Forall (fun ev : event => is_write ev = false)
                  (trace (run env self))).
    { apply run_Forall; [| reflexivity].
      apply run_loop_Forall_within.
      - now intros [| [| ? [| ? ?]] | | | | | | | | | | | |].
      - now intros [| x [| y rest]].
      - now intros [| x [| y rest]].
      - apply outputs_for_Forall. intros index line m.
        rewrite maybe_print_trace, Hnone.
        destruct (_print_to_console self); repeat constructor. }
    split; [now apply only_none |].
    apply flat_map_nil_Forall. eapply Forall_impl; [| exact H].
    now intros [].
Qed.

Lemma written_printed_outputs_for (f : string) :
  _print_to_console self = true ->
  _output_file self = Some f ->
  forall pairs index,
    written (outputs_for self index pairs)
    = printed_predictions (outputs_for self index pairs).
Proof.
  intros Hp Hf. unfold written, printed_predictions.
  induction pairs as [| [m line] rest IH]; intros index; cbn;
    [reflexivity |].
  rewrite !flat_map_app, IH, maybe_print_trace, Hp, Hf.
  reflexivity.
Qed.

(** X7. With printing on and an output file, the output file receives
    exactly the predictions that are printed, in the same order, however
    [run] ends and whatever the predictor returns. *)
Theorem file_receives_what_is_printed (f : string) :
  _print_to_console self = true ->
  _output_file self = Some f ->
  written (trace (run env self)) = printed_predictions (trace (run env self)).
Proof.
  intros Hp Hf. unfold written, printed_predictions.
  rewrite !run_blind_to_close by reflexivity.
  unfold run_loop.
  destruct (negb (is_None (_dataset_reader self))).
  - apply (for_batches_agree self (str env) _ _ _
             (predict_instances_eq self)).
    + eapply Forall_impl; [| apply instance_source_events].
      now intros [| [| ? [| ? ?]] | | | | | | | | | | | |].
    + now intros [| x [| y rest]].
    + intros index pairs.
      now apply (written_printed_outputs_for Hp Hf).
  - apply (for_batches_agree self (json_dumps env) _ _ _
             (predict_json_eq self)).
    + eapply Forall_impl; [| apply json_source_events].
      now intros [| [| ? [| ? ?]] | | | | | | | | | | | |].
    + now intros [| x [| y rest]].
    + intros index pairs.
      now apply (written_printed_outputs_for Hp Hf).
Qed.

Lemma call_json_within (batch : list JsonDict) :
  1 <= length batch ->
  (Z.of_nat (length batch) <= _batch_size self)%Z ->
  batch_call_within (Instance := Instance) (_batch_size self)
    (call_json batch) = true.
Proof.
  destruct batch as [| x [| y rest]]; intros Hb Hn;
    [cbn in Hb; lia | reflexivity |].
  cbn [call_json batch_call_within].
  apply andb_true_intro; split; [reflexivity | now apply Z.leb_le].
Qed.

Lemma call_instances_within (batch : list Instance) :
  1 <= length batch ->
  (Z.of_nat (length batch) <= _batch_size self)%Z ->
  batch_call_within (JsonDict := JsonDict) (_batch_size self)
    (call_instances batch) = true.
Proof.
  destruct batch as [| x [| y rest]]; intros Hb Hn;
    [cbn in Hb; lia | reflexivity |].
  cbn [call_instances batch_call_within].
  apply andb_true_intro; split; [reflexivity | now apply Z.leb_le].
Qed.

(** X8. In every run, however it ends, a batch operation of the
    predictor is called on two records at least and on as many as the
    batch size at most; with a batch size of 1, the default, no batch
    operation is ever called. *)
Theorem batch_calls_within_batch_size :
  Forall (fun ev => batch_call_within (_batch_size self) ev = true)
    (trace (run env self))
  /\ (_batch_size self = 1%Z ->
      only is_batch_call (trace (run env self)) = []).
Proof.
  assert (H : Forall (fun ev => batch_call_within (_batch_size self) ev = true)
                (trace (run env self))).
  { apply run_Forall; [| reflexivity].
    apply run_loop_Forall_within.
    - now intros [| [| ? [| ? ?]] | | | | | | | | | | | |].
    - apply call_json_within.
    - apply call_instances_within.
    - intros index pairs.
      eapply Forall_impl; [| apply outputs_for_kind].
      now intros []. }
  split; [exact H |].
  intros Hone. apply only_none.
  eapply Forall_impl; [| exact H]. rewrite Hone.
  intros [] Hev; try reflexivity; cbn [batch_call_within] in Hev;
    apply andb_prop in Hev; destruct Hev as [H2 H1];
    apply Nat.leb_le in H2; apply Z.leb_le in H1; lia.
Qed.

(** X9. For a batch of two records or more, the results of the batch
    operation are paired with the records as [zip] pairs them: when the
    predictor returns fewer results than records, the records beyond are
    dropped without an error, and when it returns more, the results
    beyond are; the lines written are those of the first results, as
    many as there are records at most, and the numbering goes on from the
    number of pairs. *)
Theorem batch_results_are_zipped (f : string) (index : nat) :
  _output_file self = Some f ->
  (forall batch : list JsonDict,
      1 < length batch ->
      value (for_batch self (json_dumps env) (_predict_json self) batch index)
      = Ok (index
            + Nat.min (length batch)
                (length (predict_batch_json (_predictor self) batch)))
      /\ written
           (trace (for_batch self (json_dumps env) (_predict_json self)
                     batch index))
         = firstn (length batch)
             (lines_of self (predict_batch_json (_predictor self) batch)))
  /\ (forall batch : list Instance,
         1 < length batch ->
         value (for_batch self (str env) (_predict_instances self) batch index)
         = Ok (index
               + Nat.min (length batch)
                   (length (predict_batch_instance (_predictor self) batch)))
         /\ written
              (trace (for_batch self (str env) (_predict_instances self)
                        batch index))
            = firstn (length batch)
                (lines_of self
                   (predict_batch_instance (_predictor self) batch))).
Proof.
  intros Hf. split.
  - intros batch Hb.
    rewrite (for_batch_eq self (json_dumps env) _ _ _ (predict_json_eq self))
      by (intros ->; cbn in Hb; lia).
    destruct batch as [| x [| y rest]]; cbn in Hb; try lia.
    cbn [results_json trace value fst snd]. split.
    + rewrite length_combine. unfold lines_of. now rewrite length_map.
    + unfold written. cbn [flat_map app].
      fold (written
              (outputs_for self index
                 (combine (map (json_dumps env) (x :: y :: rest))
                    (lines_of self
                       (predict_batch_json (_predictor self)
                          (x :: y :: rest)))))).
      rewrite (written_outputs_for_firstn self _ Hf).
      now rewrite length_map.
  - intros batch Hb.
    rewrite (for_batch_eq self (str env) _ _ _ (predict_instances_eq self))
      by (intros ->; cbn in Hb; lia).
    destruct batch as [| x [| y rest]]; cbn in Hb; try lia.
    cbn [results_instances trace value fst snd]. split.
    + rewrite length_combine. unfold lines_of. now rewrite length_map.
    + unfold written. cbn [flat_map app].
      fold (written
              (outputs_for self index
                 (combine (map (str env) (x :: y :: rest))
                    (lines_of self
                       (predict_batch_instance (_predictor self)
                          (x :: y :: rest)))))).
      rewrite (written_outputs_for_firstn self _ Hf).
      now rewrite length_map.
Qed.

End Sinks.

(** ** The constructor and the command, again *)

Section CommandAgain.

Context {JsonDict Instance Archive : Type}.

Local Abbreviation event := (@event JsonDict Instance).
Local Abbreviation Predictor := (@Predictor JsonDict Instance).
Local Abbreviation _PredictManager := (@_PredictManager JsonDict Instance).
Local Abbreviation Env := (@Env JsonDict Instance Archive).

Variable env : Env.

Lemma lstrip_blank (s : string) :
  PyStr.all_space s = true -> PyStr.lstrip s = EmptyString.
Proof.
  induction s as [| c s IH]; cbn; [reflexivity |].
  destruct (PyStr.char_isspace c); cbn; [exact IH | discriminate].
Qed.

Lemma lstrip_nonblank (s : string) :
  PyStr.all_space s = false ->
  exists c rest,
    PyStr.lstrip s = String c rest /\ PyStr.char_isspace c = false.
Proof.
  induction s as [| c s IH]; cbn; [discriminate |].
  destruct (PyStr.char_isspace c) eqn:Ec; cbn; [exact IH |].
  intros _. now exists c, s.
Qed.

Lemma rstrip_nonblank_head (c : ascii) (rest : string) :
  PyStr.char_isspace c = false ->
  PyStr.rstrip (String c rest) <> EmptyString.
Proof.
  intros Hc. cbn. rewrite Hc. now destruct (PyStr.rstrip rest).
Qed.

(** Stripping leaves nothing exactly of the texts of whitespace. *)
Lemma strip_empty (s : string) :
  (String.length (PyStr.strip s) <=? 0)%nat = PyStr.all_space s.
Proof.
  unfold PyStr.strip. destruct (PyStr.all_space s) eqn:E.
  - now rewrite lstrip_blank.
  - destruct (lstrip_nonblank s E) as (c & rest & -> & Hc).
    pose proof (@rstrip_nonblank_head c rest Hc) as Hne.
    now destruct (PyStr.rstrip (String c rest)).
Qed.

(** X10. Once the GPU check has passed and the archive is loaded,
    [_get_predictor] treats [--predictor-args] as follows: a text that is
    empty or of whitespace only means no extra argument, and [json.loads]
    is not consulted (the result does not depend on it); any other text
    is parsed after its surrounding whitespace is stripped, a failure of
    the parsing is the result, and the value parsed is what the predictor
    is built with. *)
Theorem predictor_args_are_parsed_unless_blank
    (args : Namespace.t) (archive : Archive) :
  check_for_gpu env (Namespace.cuda_device args) = Ok tt ->
  load_archive env (Namespace.archive_file args) (Namespace.weights_file args)
    (Namespace.cuda_device args) (Namespace.overrides args)
  = Ok archive ->
  (PyStr.all_space (Namespace.predictor_args args) = true ->
   _get_predictor env args
   = ([], from_archive env archive (Namespace.predictor args)
            (Namespace.dataset_reader_choice args) (empty_dict env)))
  /\ (PyStr.all_space (Namespace.predictor_args args) = false ->
      PyStr.strip (Namespace.predictor_args args) <> EmptyString
      /\ _get_predictor env args
         = ([], match json_loads env
                        (PyStr.strip (Namespace.predictor_args args)) with
                | Ok extra =>
                    from_archive env archive (Namespace.predictor args)
                      (Namespace.dataset_reader_choice args) extra
                | Err e => Err e
                end)).
Proof.
  intros Hgpu Harchive. unfold _get_predictor, lift.
  rewrite Hgpu, Harchive. cbn. rewrite strip_empty.
  split; intros Hblank; rewrite Hblank; cbn.
  - now destruct (from_archive env _ _ _ _).
  - split.
    + pose proof (strip_empty (Namespace.predictor_args args)) as H.
      rewrite Hblank in H. intros Hs. now rewrite Hs in H.
    + destruct (json_loads env _); cbn; [| reflexivity].
      now destruct (from_archive env _ _ _ _).
Qed.

Lemma init_accepts (predictor : Predictor) (input_file : string)
    (output_file : option string) (batch_size : Z)
    (print_to_console has_dataset_reader : bool)
    (compression multitask_head : option string) :
  output_opens env output_file ->
  refused_combination (configured_reader predictor has_dataset_reader)
    multitask_head = false ->
  __init__ env predictor input_file output_file batch_size print_to_console
    has_dataset_reader compression multitask_head
  = (match output_file with
     | Some path => [EvOpenOutput path]
     | None => []
     end,
     Ok (constructed predictor input_file output_file batch_size
           print_to_console has_dataset_reader compression multitask_head)).
Proof.
  unfold output_opens, refused_combination, configured_reader, constructed,
    __init__.
  destruct output_file as [path |]; [intros -> | intros _]; cbn;
    destruct multitask_head, has_dataset_reader; cbn;
    try discriminate; try reflexivity;
    destruct (Predictor_dataset_reader predictor) as [r |]; cbn;
    try discriminate; try reflexivity;
    destruct (is_MultiTaskDatasetReader r); cbn;
    try discriminate; reflexivity.
Qed.

Lemma init_ok_inv (predictor : Predictor) (input_file : string)
    (output_file : option string) (batch_size : Z)
    (print_to_console has_dataset_reader : bool)
    (compression multitask_head : option string) (self : _PredictManager) :
  value (__init__ env predictor input_file output_file batch_size
           print_to_console has_dataset_reader compression multitask_head)
  = Ok self ->
  self = constructed predictor input_file output_file batch_size
           print_to_console has_dataset_reader compression multitask_head
  /\ refused_combination (configured_reader predictor has_dataset_reader)
       multitask_head = false
  /\ output_opens env output_file.
Proof.
  unfold output_opens, refused_combination, configured_reader, constructed,
    __init__.
  destruct output_file as [path |]; cbn.
  - destruct (open_for_writing env path) as [[] | e]; cbn; [| discriminate].
    destruct multitask_head, has_dataset_reader; cbn;
      try discriminate; try (intros [= <-]; auto);
      destruct (Predictor_dataset_reader predictor) as [r |]; cbn;
      try discriminate; try (intros [= <-]; auto);
      destruct (is_MultiTaskDatasetReader r); cbn;
      try discriminate; intros [= <-]; auto.
  - destruct multitask_head, has_dataset_reader; cbn;
      try discriminate; try (intros [= <-]; auto);
      destruct (Predictor_dataset_reader predictor) as [r |]; cbn;
      try discriminate; try (intros [= <-]; auto);
      destruct (is_MultiTaskDatasetReader r); cbn;
      try discriminate; intros [= <-]; auto.
Qed.

(** X11. The constructor succeeds exactly when the output file opens,
    if one is asked for, and the combination of reader and head name is
    not one it refuses: it returns a manager if and only if both hold;
    and when both hold it has opened the output file and done nothing
    else, and the manager holds the arguments as given, with the reader
    of the predictor when a reader is asked for. *)
Theorem constructor_succeeds_exactly_when_valid
    (predictor : Predictor) (input_file : string)
    (output_file : option string) (batch_size : Z)
    (print_to_console has_dataset_reader : bool)
    (compression multitask_head : option string) :
  ((exists self,
       value (__init__ env predictor input_file output_file batch_size
                print_to_console has_dataset_reader compression
                multitask_head)
       = Ok self)
   <-> (output_opens env output_file
        /\ refused_combination
             (configured_reader predictor has_dataset_reader) multitask_head
           = false))
  /\ (output_opens env output_file ->
      refused_combination (configured_reader predictor has_dataset_reader)
        multitask_head = false ->
      __init__ env predictor input_file output_file batch_size
        print_to_console has_dataset_reader compression multitask_head
      = (match output_file with
         | Some path => [EvOpenOutput path]
         | None => []
         end,
         Ok (constructed predictor input_file output_file batch_size
               print_to_console has_dataset_reader compression
               multitask_head))).
Proof.
  split; [split |].
  - intros [self Hself].
    destruct (init_ok_inv _ _ _ _ _ _ _ _ Hself) as (_ & Hcomb & Hopen).
    now split.
  - intros [Hopen Hcomb].
    rewrite (init_accepts predictor input_file output_file batch_size
               print_to_console has_dataset_reader compression
               multitask_head Hopen Hcomb).
    cbn. eexists. reflexivity.
  - apply init_accepts.
Qed.

(** X12. Every manager the constructor returns satisfies what
    [_get_instance_data] asserts: a head name is held exactly when the
    reader attached is a multitask reader, and with no reader no head
    name is held; so the assertion of [_get_instance_data] does not
    fail. *)
Theorem constructed_manager_invariant
    (predictor : Predictor) (input_file : string)
    (output_file : option string) (batch_size : Z)
    (print_to_console has_dataset_reader : bool)
    (compression multitask_head : option string) (self : _PredictManager) :
  value (__init__ env predictor input_file output_file batch_size
           print_to_console has_dataset_reader compression multitask_head)
  = Ok self ->
  (forall reader,
      _dataset_reader self = Some reader ->
      is_MultiTaskDatasetReader reader = negb (is_None (_multitask_head self)))
  /\ (_dataset_reader self = None -> _multitask_head self = None)
  /\ _get_instance_data self <> GRaise AssertionError.
Proof.
  intros Hself.
  destruct (init_ok_inv _ _ _ _ _ _ _ _ Hself) as (-> & Hcomb & _).
  unfold refused_combination in Hcomb. unfold _get_instance_data.
  cbn [constructed _dataset_reader _multitask_head _input_file] in *.
  destruct (configured_reader predictor has_dataset_reader) as [r |];
    destruct multitask_head as [h |]; cbn in Hcomb |- *;
    try discriminate;
    try (destruct (is_MultiTaskDatasetReader r) eqn:Er; cbn in Hcomb;
         try discriminate);
    repeat split; try discriminate;
    try (now intros reader [= <-]);
    unfold yield_from_read;
    destruct (input_file =? "-")%string; discriminate.
Qed.

(** The command once the predictor is loaded and the early exit is not
    taken: it constructs the manager, with the head name in the place of
    the compression type and no head name, and runs it. *)
Lemma predict_after_loading (args : Namespace.t) (predictor : Predictor) :
  value (_get_predictor env args) = Ok predictor ->
  Namespace.silent args && negb (PyStr.truthy (Namespace.output_file args))
  = false ->
  _predict env args
  = bind (emit (EvSetFileFriendlyLogging
                  (Namespace.file_friendly_logging args)))
      (fun _ =>
         bind (__init__ env predictor
                 (Namespace.input_file args) (Namespace.output_file args)
                 (Namespace.batch_size args) (negb (Namespace.silent args))
                 (Namespace.use_dataset_reader args)
                 (Namespace.multitask_head args) None)
           (fun manager => run env manager)).
Proof.
  intros Hpred Hexit. unfold _predict.
  rewrite (M_eta (_get_predictor env args)), get_predictor_trace, Hpred, Hexit.
  cbn. now destruct (bind _ _).
Qed.

(** X13. Through the command, a multitask dataset reader is always
    refused: for every invocation that asks for the dataset reader and
    whose predictor loads with a multitask reader (the early exit is not
    taken, the output file opens if one is asked for), the command ends
    with the configuration error that asks for [--multitask-head],
    whatever [--multitask-head] is given, before any record is read. *)
Theorem command_refuses_every_multitask_reader
    (args : Namespace.t) (predictor : Predictor) (reader : DatasetReader) :
  value (_get_predictor env args) = Ok predictor ->
  Namespace.silent args && negb (PyStr.truthy (Namespace.output_file args))
  = false ->
  Namespace.use_dataset_reader args = true ->
  Predictor_dataset_reader predictor = Some reader ->
  is_MultiTaskDatasetReader reader = true ->
  output_opens env (Namespace.output_file args) ->
  value (_predict env args)
  = Err (ConfigurationError
           "You must specify --multitask-head when using a multitask dataset reader.")
  /\ only is_input_read (trace (_predict env args)) = []
  /\ only is_prediction (trace (_predict env args)) = [].
Proof.
  intros Hpred Hexit Huse Hreader Hmulti Hopen.
  rewrite (predict_after_loading args Hpred Hexit).
  assert (Hinit : __init__ env predictor
                    (Namespace.input_file args) (Namespace.output_file args)
                    (Namespace.batch_size args) (negb (Namespace.silent args))
                    (Namespace.use_dataset_reader args)
                    (Namespace.multitask_head args) None
                  = (match Namespace.output_file args with
                     | Some path => [EvOpenOutput path]
                     | None => []
                     end,
                     Err (ConfigurationError
                            "You must specify --multitask-head when using a multitask dataset reader."))).
  { unfold __init__, output_opens in *. rewrite Huse, Hreader.
    destruct (Namespace.output_file args) as [path |]; cbn.
    - rewrite Hopen. cbn. now rewrite Hmulti.
    - now rewrite Hmulti. }
  rewrite Hinit. now destruct (Namespace.output_file args).
Qed.

Lemma In_only (keep : event -> bool) (ev : event) (t : list event) :
  In ev (only keep t) -> In ev t.
Proof.
  unfold only. induction t as [| x t IH]; cbn; [easy |].
  intros Hin. apply in_app_or in Hin. destruct Hin as [Hin | Hin].
  - destruct (keep x); cbn in Hin; [| easy]. left. now destruct Hin.
  - right. now apply IH.
Qed.

(** X14. The command never uses [--compression-type]: two invocations
    that differ in it only behave the same.  What [open_compressed]
    receives as compression type is the value of [--multitask-head]: in
    raw-JSON mode on a file that [cached_path] resolves, with a batch
    size of 1 or more, the command opens the input with it. *)
Theorem command_ignores_compression_type
    (args : Namespace.t) (predictor : Predictor) (path : string) :
  (forall c,
      _predict env (Namespace.with_compression_type args c)
      = _predict env args)
  /\ (value (_get_predictor env args) = Ok predictor ->
      Namespace.silent args
      && negb (PyStr.truthy (Namespace.output_file args)) = false ->
      Namespace.use_dataset_reader args = false ->
      output_opens env (Namespace.output_file args) ->
      Namespace.input_file args <> "-" ->
      cached_path env (Namespace.input_file args) = Ok path ->
      (1 <= Namespace.batch_size args)%Z ->
      In (EvOpenCompressed path (Namespace.multitask_head args))
        (trace (_predict env args))).
Proof.
  split; [reflexivity |].
  intros Hpred Hexit Huse Hopen Hinput Hpath Hn.
  rewrite (predict_after_loading args Hpred Hexit).
  rewrite init_accepts; try assumption;
    [| unfold configured_reader; now rewrite Huse].
  set (manager := constructed _ _ _ _ _ _ _ _).
  assert (Hin : In (EvOpenCompressed path (Namespace.multitask_head args))
                  (trace (run env manager))).
  { apply In_only with (keep := is_input_read).
    rewrite run_reads by exact Hn.
    unfold source_events, manager, constructed, configured_reader.
    cbn. rewrite Huse. cbn. unfold _get_json_data, try_open_compressed.
    cbn. apply String.eqb_neq in Hinput. rewrite Hinput, Hpath.
    destruct (Namespace.multitask_head args); cbn; auto. }
  rewrite !trace_bind. cbn.
  right. apply in_or_app. right. exact Hin.
Qed.

(** X15. With the silent flag and no output file, the command makes no
    prediction, reads no record and opens no output file, and does not
    return normally, whether the predictor loads or not: it ends with the
    exit of status 0 or with the error of the loading. *)
Theorem silent_without_output_never_predicts (args : Namespace.t) :
  Namespace.silent args = true ->
  PyStr.truthy (Namespace.output_file args) = false ->
  only is_prediction (trace (_predict env args)) = []
  /\ only is_input_read (trace (_predict env args)) = []
  /\ only is_open_output (trace (_predict env args)) = []
  /\ (value (_predict env args) = Err (SystemExit 0)
      \/ exists e,
           value (_get_predictor env args) = Err e
           /\ value (_predict env args) = Err e).
Proof.
  intros Hsilent Hout. unfold _predict.
  rewrite (M_eta (_get_predictor env args)), get_predictor_trace.
  rewrite Hsilent, Hout.
  destruct (value (_get_predictor env args)) as [p | e]; cbn.
  - repeat split. now left.
  - repeat split. right. now exists e.
Qed.

End CommandAgain.

(** ** The numbering of the inputs *)

Section Numbering.

Context {JsonDict Instance Archive : Type}.

Local Abbreviation event := (@event JsonDict Instance).
Local Abbreviation _PredictManager := (@_PredictManager JsonDict Instance).
Local Abbreviation Env := (@Env JsonDict Instance Archive).

Variable env : Env.
Variable self : _PredictManager.

Lemma printed_inputs_of_outputs (t : list event) :
  printed_inputs (record_outputs t) = printed_inputs t.
Proof.
  unfold printed_inputs, record_outputs, only.
  induction t as [| ev t IH]; cbn; [reflexivity |].
  rewrite flat_map_app, IH.
  destruct ev as [| [| ? [| ? [| ? ?]]] | | | | | | | | | | | |];
    try reflexivity.
  cbn. now rewrite app_nil_r.
Qed.

Lemma printed_inputs_outputs_for (lines : list string) :
  _print_to_console self = true ->
  forall (shown : list string) (index : nat),
    length shown = length lines ->
    printed_inputs (outputs_for self index (combine shown lines))
    = combine (map input_label (seq index (length shown))) shown.
Proof.
  intros Hp. unfold printed_inputs.
  induction lines as [| line lines IH]; intros [| m shown] index Hlen;
    cbn in Hlen; try discriminate; [reflexivity |].
  cbn [combine outputs_for length seq map].
  rewrite flat_map_app, maybe_print_trace, Hp, flat_map_app.
  rewrite IH by now injection Hlen.
  replace (index + 1) with (S index) by lia.
  cbn. now destruct (_output_file self).
Qed.

Lemma same_length_in_order {X} (single : X -> JsonDict)
    (batch : list X -> list JsonDict) :
  (forall xs, length (batch xs) = length xs) ->
  answers_in_order (fun _ _ => True) single batch.
Proof.
  intros Hlen. split; [easy |]. intros xs. specialize (Hlen xs).
  revert Hlen. generalize (batch xs) as ys.
  induction xs as [| x xs IH]; intros [| y ys] Hlen; cbn in Hlen;
    try discriminate; constructor; auto.
Qed.

(** X16. With printing on, a batch size of 1 or more, a source that is
    read to its end and a predictor whose batch operations return as
    many results as they get records, the inputs that [run] prints are
    those of the records, in order, each under the label "input N: "
    where N counts the records from 0 across the batches. *)
Theorem printed_inputs_are_numbered_from_zero :
  (1 <= _batch_size self)%Z ->
  _print_to_console self = true ->
  source_completes env self ->
  (forall xs, length (predict_batch_json (_predictor self) xs) = length xs) ->
  (forall xs,
      length (predict_batch_instance (_predictor self) xs) = length xs) ->
  printed_inputs (trace (run env self))
  = match _dataset_reader self with
    | Some _ =>
        combine
          (map input_label
             (seq 0 (length (gen_items (_get_instance_data self)))))
          (map (str env) (gen_items (_get_instance_data self)))
    | None =>
        combine
          (map input_label
             (seq 0 (length (gen_items (_get_json_data env self)))))
          (map (json_dumps env) (gen_items (_get_json_data env self)))
    end.
Proof.
  intros Hn Hp Hsrc Hj Hi. unfold source_completes in Hsrc.
  rewrite <- printed_inputs_of_outputs.
  destruct (_dataset_reader self) as [reader |] eqn:Hmode.
  - destruct (run_outputs_instances env self (R := fun _ _ => True)
                Hn Hmode Hsrc (same_length_in_order _ _ Hi))
      as (_ & rs & HR & Hout & _).
    rewrite Hout, printed_inputs_outputs_for; trivial.
    + now rewrite length_map.
    + unfold lines_of. rewrite !length_map.
      eapply Forall2_length; eassumption.
  - destruct (run_outputs_json env self (R := fun _ _ => True)
                Hn Hmode Hsrc (same_length_in_order _ _ Hj))
      as (_ & rs & HR & Hout & _).
    rewrite Hout, printed_inputs_outputs_for; trivial.
    + now rewrite length_map.
    + unfold lines_of. rewrite !length_map.
      eapply Forall2_length; eassumption.
Qed.

End Numbering.

(** ** The statements at concrete inputs *)

Module Examples.

Import Bench.

Lemma predictor_elementwise_json :
  answers_in_order (fun x r => r = wrap x)
    (predict_json predictor) (predict_batch_json predictor).
Proof. now apply elementwise_in_order. Qed.

Lemma predictor_elementwise_instance :
  answers_in_order (fun x r => r = wrap x)
    (predict_instance predictor) (predict_batch_instance predictor).
Proof. now apply elementwise_in_order. Qed.

(** Standard input, batches of two, console and output file: the
    three records of [three_lines] come out in order. *)
Lemma run_emits_one_prediction_per_record_witness :
  (1 <= 2)%Z
  /\ source_completes env (manager "-" (Some "out.jsonl") 2 true false)
  /\ value (run env (manager "-" (Some "out.jsonl") 2 true false)) = Ok tt
  /\ predicted_json
       (trace (run env (manager "-" (Some "out.jsonl") 2 true false)))
     = gen_items
         (_get_json_data env (manager "-" (Some "out.jsonl") 2 true false))
  /\ one_output_per_record (manager "-" (Some "out.jsonl") 2 true false)
       (trace (run env (manager "-" (Some "out.jsonl") 2 true false)))
       (fun x r => r = wrap x) (json_dumps env)
       (gen_items
          (_get_json_data env (manager "-" (Some "out.jsonl") 2 true false))).
Proof.
  split; [lia |]. split; [reflexivity |].
  exact (run_emits_one_prediction_per_record env
           (manager "-" (Some "out.jsonl") 2 true false)
           (Rj := fun x r => r = wrap x) (Ri := fun x r => r = wrap x)
           ltac:(simpl; lia)
           predictor_elementwise_json predictor_elementwise_instance
           eq_refl).
Defined.

(** A file read one record at a time and two at a time. *)
Lemma batch_size_1_and_K_same_outputs_witness :
  (1 < 2)%Z
  /\ written
       (trace (run env (with_batch_size
                          (manager "in.jsonl" (Some "out.jsonl") 1 true false)
                          1)))
     = written
         (trace (run env (with_batch_size
                            (manager "in.jsonl" (Some "out.jsonl") 1 true false)
                            2))).
Proof.
  split; [lia |].
  exact (proj1 (proj2 (proj2 (proj2
           (batch_size_1_and_K_same_outputs env
              (manager "in.jsonl" (Some "out.jsonl") 1 true false)
              (K := 2) ltac:(lia)
              (fun xs => eq_refl) (fun xs => eq_refl) eq_refl))))).
Defined.

(** A batch of two records goes to the batch operation; in a run over
    three records in batches of two, the first call is the batch
    operation on the first two records and the second the single-record
    operation on the third. *)
Lemma predictor_operation_follows_batch_length_witness :
  1 < length ["a"; "b"]
  /\ _predict_json (manager "-" None 2 true false) ["a"; "b"]
     = GDo (EvPredictBatchJson ["a"; "b"])
         (yield_lines (manager "-" None 2 true false)
            (predict_batch_json predictor ["a"; "b"]))
  /\ gen_items
       (lazy_groups_of (_get_json_data env (manager "-" None 2 true false)) 2)
     = [[("a" ++ nl)%string; ("b" ++ nl)%string]; ["c"]]
  /\ Forall2 json_call_follows_length
       (gen_items
          (lazy_groups_of
             (_get_json_data env (manager "-" None 2 true false)) 2))
       (only is_prediction
          (trace (run env (manager "-" None 2 true false)))).
Proof.
  split; [simpl; lia |]. split; [| split; [reflexivity |]].
  - exact (proj1 (proj2 (proj2
             (predictor_operation_follows_batch_length env
                (manager "-" None 2 true false))))
             ["a"; "b"] ltac:(simpl; lia)).
  - exact (proj2 (proj2 (proj2 (proj2 (proj2 (proj2
             (predictor_operation_follows_batch_length env
                (manager "-" None 2 true false)))))))).
Defined.

(** Reader mode on standard input. *)
Lemma reader_mode_refuses_stdin_witness :
  run env (manager "-" (Some "out.jsonl") 2 true true)
  = ([], Err (ConfigurationError
                "stdin is not an option when using a DatasetReader."))
  /\ only is_input_read
       (trace (run env (manager "-" (Some "out.jsonl") 2 true true))) = []
  /\ only is_prediction
       (trace (run env (manager "-" (Some "out.jsonl") 2 true true))) = [].
Proof.
  exact (reader_mode_refuses_stdin env
           (manager "-" (Some "out.jsonl") 2 true true)
           (reader := plain_reader) eq_refl eq_refl ltac:(simpl; lia)).
Defined.

(** A file whose opening fails with an [OSError]. *)
Lemma detection_failure_is_reported_witness :
  run env (manager "bad.gz" None 2 true false)
  = ([EvCachedPath "bad.gz"; EvOpenCompressed "bad.gz" None;
      EvPrint ["Automatic detection failed, please specify the compression type argument."]],
     Ok tt).
Proof.
  exact (proj1
           (detection_failure_is_reported env
              (manager "bad.gz" None 2 true false)
              (path := "bad.gz")
              (message := "not a known compression format")
              eq_refl ltac:(discriminate) eq_refl ltac:(simpl; lia)
              eq_refl eq_refl)).
Defined.

(** No record at all, and an output file: it is closed once. *)
Lemma output_file_closed_exactly_once_witness :
  gen_items (_get_json_data env (manager "bad.gz" (Some "out.jsonl") 2 true false))
  = []
  /\ only is_close_output
       (trace (run env (manager "bad.gz" (Some "out.jsonl") 2 true false)))
     = [EvCloseOutput "out.jsonl"].
Proof.
  split; [reflexivity |].
  exact (proj1
           (proj1
              (output_file_closed_exactly_once env
                 (manager "bad.gz" (Some "out.jsonl") 2 true false))
              "out.jsonl" eq_refl eq_refl)).
Defined.

(** The five lines of [three_lines], two of them of whitespace, on
    standard input and in a file. *)
Lemma whitespace_lines_are_skipped_witness :
  PyStr.lines (stdin env)
  = [("a" ++ nl)%string; ("  " ++ nl)%string; ("b" ++ nl)%string; nl; "c"]
  /\ gen_items (_get_json_data env (manager "-" None 2 true false))
     = [("a" ++ nl)%string; ("b" ++ nl)%string; "c"]
  /\ predicted_json (trace (run env (manager "-" None 2 true false)))
     = map (load_line predictor)
         (filter (fun l => negb (PyStr.all_space l))
            (PyStr.lines (stdin env)))
  /\ predicted_json (trace (run env (manager "in.jsonl" None 2 true false)))
     = map (load_line predictor)
         (filter (fun l => negb (PyStr.all_space l))
            (PyStr.lines three_lines)).
Proof.
  split; [reflexivity |]. split; [| split].
  - exact (proj1
             (proj1
                (whitespace_lines_are_skipped env
                   (manager "-" None 2 true false))
                eq_refl)).
  - exact (proj2 (proj2
             (proj1
                (whitespace_lines_are_skipped env
                   (manager "-" None 2 true false))
                eq_refl))
             eq_refl ltac:(simpl; lia)).
  - exact (proj2 (proj2
             (proj2
                (whitespace_lines_are_skipped env
                   (manager "in.jsonl" None 2 true false))
                "in.jsonl"
                {| ts_content := three_lines; ts_failure := None |}
                ltac:(discriminate) eq_refl eq_refl eq_refl))
             eq_refl ltac:(simpl; lia)).
Defined.

(** C10, as stated, fails: with a batch size of 0 the source is never
    pulled, and no record is handed to the predictor although standard
    input holds three lines that are not of whitespace. *)
Lemma no_record_predicted_with_batch_size_zero :
  _dataset_reader (manager "-" None 0 true false) = None
  /\ map (load_line predictor)
       (filter (fun l => negb (PyStr.all_space l)) (PyStr.lines (stdin env)))
     = [("a" ++ nl)%string; ("b" ++ nl)%string; "c"]
  /\ predicted_json (trace (run env (manager "-" None 0 true false))) = []
  /\ run env (manager "-" None 0 true false) = ([], Ok tt).
Proof. repeat split. Qed.

(** C6, as stated, fails: in reader mode on standard input with a batch
    size of 0, the source is never pulled, no configuration error is
    raised, and [run] closes the output file and returns. *)
Lemma reader_mode_stdin_with_batch_size_zero :
  _dataset_reader (manager "-" (Some "out.jsonl") 0 true true)
  = Some plain_reader
  /\ _input_file (manager "-" (Some "out.jsonl") 0 true true) = "-"
  /\ run env (manager "-" (Some "out.jsonl") 0 true true)
     = ([EvCloseOutput "out.jsonl"], Ok tt).
Proof. repeat split. Qed.

(** A head name and no dataset reader, with no output file. *)
Lemma constructor_refuses_bad_combination_witness :
  exists msg,
    value (__init__ env (predictor_with None) "in.jsonl" None 1 true false
             None (Some "head"))
    = Err (ConfigurationError msg).
Proof.
  exact (proj1
           (constructor_refuses_bad_combination env (predictor_with None)
              "in.jsonl" None 1 true false None (Some "head") eq_refl)
           (or_introl eq_refl)).
Defined.

(** C4, as stated, fails: a head name is given and no dataset reader
    is attached, the output path cannot be opened, and the constructor
    raises the error of the opening, which is not a configuration
    error. *)
Lemma constructor_can_fail_with_io_error :
  refused_combination (configured_reader (predictor_with None) false)
    (Some "head") = true
  /\ __init__ env (predictor_with None) "in.jsonl"
       (Some "missing/out.jsonl") 1 true false None (Some "head")
     = ([EvOpenOutput "missing/out.jsonl"],
        Err (OSError "No such file or directory"))
  /\ is_configuration_error (OSError "No such file or directory") = false.
Proof. repeat split. Qed.

(** The silent flag, no output file, and a predictor that loads. *)
Lemma silent_without_output_exits_early_witness :
  _predict env (args "in.jsonl" None None true false (-1))
  = ([EvSetFileFriendlyLogging false;
      EvPrint ["--silent specified without --output-file."];
      EvPrint ["Exiting early because no output will be created."]],
     Err (SystemExit 0)).
Proof.
  exact (proj1
           (silent_without_output_exits_early env
              (args "in.jsonl" None None true false (-1))
              (predictor := predictor) eq_refl eq_refl eq_refl)).
Defined.

(** C7, as stated, fails: the silent flag is set, no output file is
    given, the GPU asked for does not exist, and the command ends with
    the configuration error of [check_for_gpu]: it prints no message and
    does not exit with status 0. *)
Lemma silent_invocation_can_fail_before_exit :
  Namespace.silent (args "in.jsonl" None None true false 1) = true
  /\ Namespace.output_file (args "in.jsonl" None None true false 1) = None
  /\ _predict env (args "in.jsonl" None None true false 1)
     = ([EvSetFileFriendlyLogging false],
        Err (ConfigurationError
               "Experiment specified a GPU but none is available"))
  /\ value (_predict env (args "in.jsonl" None None true false 1))
     <> Err (SystemExit 0).
Proof. repeat split. discriminate. Qed.

(** C2, at two failing inputs.  [--multitask-head head] is given
    without [--use-dataset-reader]: the constructor is handed the head
    name as its compression type and no head name, it succeeds, and the
    three records of the input are read and predicted.  The same holds
    with [--use-dataset-reader] and a reader that is not a multitask
    reader. *)
Theorem cli_head_is_not_checked :
  value (__init__ env predictor
           "in.jsonl" None 1 true false (Some "head") None)
  = Ok {| _predictor := predictor;
          _input_file := "in.jsonl";
          _output_file := None;
          _batch_size := 1;
          _print_to_console := true;
          _dataset_reader := None;
          compression_type := Some "head";
          _multitask_head := None |}
  /\ value (_predict env (args "in.jsonl" None (Some "head") false false (-1)))
     = Ok tt
  /\ predicted_json
       (trace (_predict env
                 (args "in.jsonl" None (Some "head") false false (-1))))
     = [("a" ++ nl)%string; ("b" ++ nl)%string; "c"]
  /\ value (_predict env (args "data" None (Some "head") false true (-1)))
     = Ok tt
  /\ predicted_instances
       (trace (_predict env
                 (args "data" None (Some "head") false true (-1))))
     = ["data#0"; "data#1"; "data#2"].
Proof. repeat split. Qed.

End Examples.

(** ** The further statements at concrete inputs *)

Module MoreExamples.

Import Bench.

(** A reader that fails after three instances, batches of two: the run
    raises the error of the reader and leaves the output file open. *)
Lemma run_ends_as_its_source_witness :
  value (run Faults.env
           (Faults.manager_of predictor (Some Faults.failing_reader)
              "data" (Some "out.jsonl") None 2 true))
  = Err (OtherError "corrupt record")
  /\ only is_close_output
       (trace (run Faults.env
                 (Faults.manager_of predictor (Some Faults.failing_reader)
                    "data" (Some "out.jsonl") None 2 true)))
     = [].
Proof.
  exact (run_ends_as_its_source Faults.env
           (Faults.manager_of predictor (Some Faults.failing_reader)
              "data" (Some "out.jsonl") None 2 true)
           ltac:(simpl; lia)).
Defined.

(** The five lines of standard input, and one call of [read]. *)
Lemma run_reads_its_input_once_witness :
  only is_input_read (trace (run env (manager "-" None 2 true false)))
  = map EvStdinLine (PyStr.lines (stdin env))
  /\ only is_input_read (trace (run env (manager "data" None 2 true true)))
     = [EvReaderRead "data" None].
Proof.
  split.
  - exact (proj1
             (run_reads_its_input_once env (manager "-" None 2 true false)
                ltac:(simpl; lia))
             eq_refl eq_refl).
  - exact (proj1 (proj2
             (run_reads_its_input_once env (manager "data" None 2 true true)
                ltac:(simpl; lia)))
             plain_reader eq_refl ltac:(discriminate) eq_refl).
Defined.

(** A missing input file, and an opening that fails with an error
    that is not an [OSError]. *)
Lemma unhandled_input_failures_witness :
  run Faults.env
    (Faults.manager_of predictor None "gone.jsonl" (Some "out.jsonl") None
       2 true)
  = ([EvCachedPath "gone.jsonl"], Err (OSError "No such file or directory"))
  /\ run Faults.env
       (Faults.manager_of predictor None "odd.bin" (Some "out.jsonl") None
          2 true)
     = ([EvCachedPath "odd.bin"; EvOpenCompressed "odd.bin" None],
        Err (OtherError "LookupError")).
Proof.
  split.
  - exact (proj1
             (unhandled_input_failures Faults.env
                (Faults.manager_of predictor None "gone.jsonl"
                   (Some "out.jsonl") None 2 true)
                eq_refl ltac:(discriminate) ltac:(simpl; lia))
             (OSError "No such file or directory") eq_refl).
  - exact (proj2
             (unhandled_input_failures Faults.env
                (Faults.manager_of predictor None "odd.bin"
                   (Some "out.jsonl") None 2 true)
                eq_refl ltac:(discriminate) ltac:(simpl; lia))
             "odd.bin" (OtherError "LookupError") eq_refl eq_refl
             ltac:(intros m; discriminate)).
Defined.

(** A compression type is set and the opening fails; none is set and
    the reading breaks off after two lines. *)
Lemma oserror_stops_the_reading_witness :
  run Faults.env
    (Faults.manager_of predictor None "bad.gz" None (Some "gz") 2 true)
  = ([EvCachedPath "bad.gz"; EvOpenCompressed "bad.gz" (Some "gz");
      EvPrint ["please specify the correct compression type argument."]],
     Ok tt)
  /\ predicted_json
       (trace (run Faults.env
                 (Faults.manager_of predictor None "cut.gz" None None 2 true)))
     = [("a" ++ nl)%string; ("b" ++ nl)%string].
Proof.
  split.
  - exact (proj1
             (oserror_stops_the_reading Faults.env
                (Faults.manager_of predictor None "bad.gz" None (Some "gz")
                   2 true)
                (path := "bad.gz")
                eq_refl ltac:(discriminate) ltac:(simpl; lia) eq_refl)
             "not a known compression format" eq_refl).
  - exact (proj1 (proj2
             (proj2
                (oserror_stops_the_reading Faults.env
                   (Faults.manager_of predictor None "cut.gz" None None 2 true)
                   (path := "cut.gz")
                   eq_refl ltac:(discriminate) ltac:(simpl; lia) eq_refl)
                {| ts_content := Faults.two_lines;
                   ts_failure := Some (OSError "unexpected end of file") |}
                "unexpected end of file" eq_refl eq_refl))).
Defined.

(** Three instances and then a failure, batches of two: the first two
    instances are predicted and the third is lost. *)
Lemma raising_source_loses_less_than_a_batch_witness :
  value (run Faults.env
           (Faults.manager_of predictor (Some Faults.failing_reader)
              "data" None None 2 true))
  = Err (OtherError "corrupt record")
  /\ exists k rest,
       ["data#0"; "data#1"; "data#2"]
       = predicted_instances
           (trace (run Faults.env
                     (Faults.manager_of predictor (Some Faults.failing_reader)
                        "data" None None 2 true)))
         ++ rest
       /\ (Z.of_nat (length rest) < 2)%Z
       /\ length
            (predicted_instances
               (trace (run Faults.env
                         (Faults.manager_of predictor
                            (Some Faults.failing_reader)
                            "data" None None 2 true))))
          = k * 2.
Proof.
  exact (raising_source_loses_less_than_a_batch Faults.env
           (Faults.manager_of predictor (Some Faults.failing_reader)
              "data" None None 2 true)
           (e := OtherError "corrupt record")
           ltac:(simpl; lia) eq_refl).
Defined.

(** Printing off and an output file; printing on and no output file. *)
Lemma disabled_sinks_receive_nothing_witness :
  printed_predictions
    (trace (run env (manager "in.jsonl" (Some "out.jsonl") 2 false false)))
  = []
  /\ written (trace (run env (manager "in.jsonl" None 2 true false))) = [].
Proof.
  split.
  - exact (proj2
             (proj1
                (disabled_sinks_receive_nothing env
                   (manager "in.jsonl" (Some "out.jsonl") 2 false false))
                eq_refl)).
  - exact (proj2
             (proj2
                (disabled_sinks_receive_nothing env
                   (manager "in.jsonl" None 2 true false))
                eq_refl)).
Defined.

(** Printing on and an output file. *)
Lemma file_receives_what_is_printed_witness :
  written
    (trace (run env (manager "in.jsonl" (Some "out.jsonl") 2 true false)))
  = printed_predictions
      (trace (run env (manager "in.jsonl" (Some "out.jsonl") 2 true false))).
Proof.
  exact (file_receives_what_is_printed env
           (manager "in.jsonl" (Some "out.jsonl") 2 true false)
           (f := "out.jsonl") eq_refl eq_refl).
Defined.

(** The batch size 1. *)
Lemma batch_calls_within_batch_size_witness :
  only is_batch_call
    (trace (run env (manager "in.jsonl" None 1 true false)))
  = [].
Proof.
  exact (proj2
           (batch_calls_within_batch_size env
              (manager "in.jsonl" None 1 true false))
           eq_refl).
Defined.

(** A batch of three records and a predictor that answers one. *)
Lemma batch_results_are_zipped_witness :
  value (for_batch
           (Faults.manager_of Faults.short_predictor None "in.jsonl"
              (Some "out.jsonl") None 3 true)
           (json_dumps env)
           (_predict_json
              (Faults.manager_of Faults.short_predictor None "in.jsonl"
                 (Some "out.jsonl") None 3 true))
           ["a"; "b"; "c"] 0)
  = Ok 1
  /\ written
       (trace (for_batch
                 (Faults.manager_of Faults.short_predictor None "in.jsonl"
                    (Some "out.jsonl") None 3 true)
                 (json_dumps env)
                 (_predict_json
                    (Faults.manager_of Faults.short_predictor None "in.jsonl"
                       (Some "out.jsonl") None 3 true))
                 ["a"; "b"; "c"] 0))
     = [("P(a)" ++ nl)%string].
Proof.
  exact (proj1
           (batch_results_are_zipped env
              (Faults.manager_of Faults.short_predictor None "in.jsonl"
                 (Some "out.jsonl") None 3 true)
              (f := "out.jsonl") 0 eq_refl)
           ["a"; "b"; "c"] ltac:(simpl; lia)).
Defined.

(** Predictor arguments of two blanks, and a text that does not
    parse. *)
Lemma predictor_args_are_parsed_unless_blank_witness :
  _get_predictor Faults.env (Faults.args_with_predictor_args "  ")
  = ([], Ok predictor)
  /\ _get_predictor Faults.env (Faults.args_with_predictor_args " { ")
     = ([], Err (OtherError "JSONDecodeError")).
Proof.
  split.
  - exact (proj1
             (predictor_args_are_parsed_unless_blank Faults.env
                (Faults.args_with_predictor_args "  ") (archive := tt)
                eq_refl eq_refl)
             eq_refl).
  - exact (proj2
             (proj2
                (predictor_args_are_parsed_unless_blank Faults.env
                   (Faults.args_with_predictor_args " { ") (archive := tt)
                   eq_refl eq_refl)
                eq_refl)).
Defined.

(** A plain reader, no head name, an output file that opens. *)
Lemma constructor_succeeds_exactly_when_valid_witness :
  (exists self,
      value (__init__ env predictor "data" (Some "out.jsonl") 2 true true
               None None)
      = Ok self)
  /\ __init__ env predictor "data" (Some "out.jsonl") 2 true true None None
     = ([EvOpenOutput "out.jsonl"],
        Ok (constructed predictor "data" (Some "out.jsonl") 2 true true
              None None)).
Proof.
  split.
  - exact (proj2
             (proj1
                (constructor_succeeds_exactly_when_valid env predictor "data"
                   (Some "out.jsonl") 2 true true None None))
             (conj eq_refl eq_refl)).
  - exact (proj2
             (constructor_succeeds_exactly_when_valid env predictor "data"
                (Some "out.jsonl") 2 true true None None)
             eq_refl eq_refl).
Defined.

(** A multitask reader and a head name. *)
Lemma constructed_manager_invariant_witness :
  _get_instance_data
    (constructed (predictor_with (Some multitask_reader)) "data" None 2
       true true None (Some "head"))
  <> GRaise AssertionError.
Proof.
  exact (proj2 (proj2
           (constructed_manager_invariant env
              (predictor_with (Some multitask_reader)) "data" None 2 true
              true None (Some "head")
              (self := constructed (predictor_with (Some multitask_reader))
                         "data" None 2 true true None (Some "head"))
              eq_refl))).
Defined.

(** [--use-dataset-reader --multitask-head head] with a predictor whose
    reader is a multitask reader. *)
Lemma command_refuses_every_multitask_reader_witness :
  value (_predict
           (Faults.env_of (predictor_with (Some multitask_reader)))
           (args "data" None (Some "head") false true (-1)))
  = Err (ConfigurationError
           "You must specify --multitask-head when using a multitask dataset reader.").
Proof.
  exact (proj1
           (command_refuses_every_multitask_reader
              (Faults.env_of (predictor_with (Some multitask_reader)))
              (args "data" None (Some "head") false true (-1))
              (predictor := predictor_with (Some multitask_reader))
              (reader := multitask_reader)
              eq_refl eq_refl eq_refl eq_refl eq_refl I)).
Defined.

(** [--multitask-head gz] on a file. *)
Lemma command_ignores_compression_type_witness :
  In (EvOpenCompressed "in.jsonl" (Some "gz"))
    (trace (_predict env (args "in.jsonl" None (Some "gz") false false (-1)))).
Proof.
  exact (proj2
           (command_ignores_compression_type env
              (args "in.jsonl" None (Some "gz") false false (-1))
              predictor "in.jsonl")
           eq_refl eq_refl eq_refl I ltac:(discriminate) eq_refl
           ltac:(simpl; lia)).
Defined.

(** The silent flag, no output file, and a GPU that does not exist. *)
Lemma silent_without_output_never_predicts_witness :
  only is_prediction
    (trace (_predict env (args "in.jsonl" None None true false 1)))
  = [].
Proof.
  exact (proj1
           (silent_without_output_never_predicts env
              (args "in.jsonl" None None true false 1) eq_refl eq_refl)).
Defined.

(** Three records in batches of two. *)
Lemma printed_inputs_are_numbered_from_zero_witness :
  printed_inputs (trace (run env (manager "in.jsonl" None 2 true false)))
  = [("input 0: ", ("a" ++ nl)%string); ("input 1: ", ("b" ++ nl)%string);
     ("input 2: ", "c")].
Proof.
  exact (printed_inputs_are_numbered_from_zero env
           (manager "in.jsonl" None 2 true false)
           ltac:(simpl; lia) eq_refl eq_refl
           (fun xs => length_map wrap xs) (fun xs => length_map wrap xs)).
Defined.

End MoreExamples.
